(** * AI Prompt Enhancer: analyzer, template manager and enhancer

    A shallow embedding of [src/analyzer.js] (class PromptAnalyzer),
    [src/templates.js] (class TemplateManager) and of the enhancement
    engine (class PromptEnhancer), followed by the properties of the
    specification that concern them.

    Conventions of the embedding.
    - A JavaScript string is a sequence of code units; the code units
      modelled are those below 256 ([ascii]), so a text is a [string].
    - A JavaScript number that holds an integer is a [Z]; the numbers
      with a fractional part (readability, averages, the score before
      [Math.round]) are exact rationals [Q]: the rounding of IEEE
      doubles is not part of the model.
    - [Date.now()] and [Math.random()] are arguments of the functions
      that call them.
    - A [Map] is a [gmap]; a [Set] keeps its insertion order and is a
      duplicate-free [list]; objects held by a [Map] live in a heap
      of objects, so that two maps can hold the same object. *)

From Stdlib Require Import ZArith QArith Qround Qminmax Ascii String List Bool Lia.
From stdpp Require Import gmap strings list fin_maps pretty.

Set Warnings "-clear-no-such-hyp".

Local Open Scope string_scope.
Local Open Scope Z_scope.

(** ** JavaScript strings *)

Module JsString.

Definition chars (s : string) : list ascii := list_ascii_of_string s.
Definition str (l : list ascii) : string := string_of_list_ascii l.

Definition code (c : ascii) : nat := nat_of_ascii c.

Definition in_range (lo hi : ascii) (c : ascii) : bool :=
  (code lo <=? code c)%nat && (code c <=? code hi)%nat.

Definition is_upper (c : ascii) : bool := in_range "A" "Z" c.
Definition is_lower (c : ascii) : bool := in_range "a" "z" c.
Definition is_digit (c : ascii) : bool := in_range "0" "9" c.

(** [\w] is [A-Za-z0-9_]. *)
Definition is_word (c : ascii) : bool :=
  is_upper c || is_lower c || is_digit c || Ascii.eqb c "_".

(** [\s]: tab, line feed, vertical tab, form feed, carriage return,
    space and no-break space; [String.prototype.trim] strips the same
    code units. *)
Definition is_space (c : ascii) : bool :=
  ((9 <=? code c)%nat && (code c <=? 13)%nat)
  || (code c =? 32)%nat || (code c =? 160)%nat.

(** The line terminators, which [.] does not match. *)
Definition is_line_terminator (c : ascii) : bool :=
  (code c =? 10)%nat || (code c =? 13)%nat.

(** [toLowerCase] on one code unit: A-Z, and the Latin-1 capitals
    U+00C0..U+00DE except the multiplication sign U+00D7. *)
Definition lower_char (c : ascii) : ascii :=
  if is_upper c then ascii_of_nat (code c + 32)
  else if (192 <=? code c)%nat && (code c <=? 222)%nat
          && negb (code c =? 215)%nat
       then ascii_of_nat (code c + 32)
  else c.

Definition toLowerCase (s : string) : string :=
  str (map lower_char (chars s)).

(** The canonical form the [i] flag compares: the upper case of the
    code unit.  Only the ASCII letters matter, the patterns of the
    program holding ASCII characters only. *)
Definition canonicalize (c : ascii) : ascii :=
  if is_lower c then ascii_of_nat (code c - 32) else c.

Fixpoint drop_spaces (l : list ascii) : list ascii :=
  match l with
  | c :: l' => if is_space c then drop_spaces l' else l
  | [] => []
  end.

Definition trim_chars (l : list ascii) : list ascii :=
  rev (drop_spaces (rev (drop_spaces l))).

Definition trim (s : string) : string := str (trim_chars (chars s)).

Fixpoint prefix_of (p l : list ascii) : bool :=
  match p, l with
  | [], _ => true
  | a :: p', b :: l' => Ascii.eqb a b && prefix_of p' l'
  | _ :: _, [] => false
  end.

Fixpoint includes_chars (l sub : list ascii) : bool :=
  prefix_of sub l ||
  match l with
  | [] => false
  | _ :: l' => includes_chars l' sub
  end.

(** [s.includes(sub)] *)
Definition includes (s sub : string) : bool :=
  includes_chars (chars s) (chars sub).

(** [s.endsWith(sub)] *)
Definition endsWith (s sub : string) : bool :=
  prefix_of (rev (chars sub)) (rev (chars s)).

(** [s.substring(0, n)] *)
Definition substring0 (n : nat) (s : string) : string :=
  str (firstn n (chars s)).

(** The string that holds one double quote. *)
Definition dq : string := String (ascii_of_nat 34) "".

(** [l.join(sep)] *)
Fixpoint join (sep : string) (l : list string) : string :=
  match l with
  | [] => ""
  | [x] => x
  | x :: l' => x ++ sep ++ join sep l'
  end.

End JsString.

Import JsString.

(** ** Regular expressions

    The patterns of the program use literals, classes, [.], greedy
    repetition, alternation, the assertions [^], [$], [\b] and a
    negative lookahead; none has the [m], [s] or [u] flag and none
    refers back to a group, so groups are plain parentheses. *)

Module Regex.

Inductive regex : Type :=
| Eps
| Chr (c : ascii)                 (* a literal character *)
| Dot                             (* [.] *)
| Cls (p : ascii -> bool)         (* a class: [\s], [\d], [[...]] *)
| Seq (r1 r2 : regex)
| Alt (r1 r2 : regex)             (* [r1|r2], left first *)
| Star (r : regex)                (* [r*], greedy *)
| Bol                             (* [^] *)
| Eol                             (* [$] *)
| WordB                           (* [\b] *)
| NegLook (r : regex).            (* [(?!r)] *)

Definition Plus (r : regex) : regex := Seq r (Star r).

Fixpoint seqs (l : list regex) : regex :=
  match l with
  | [] => Eps
  | [r] => r
  | r :: l' => Seq r (seqs l')
  end.

Fixpoint alts (l : list regex) : regex :=
  match l with
  | [] => NegLook Eps
  | [r] => r
  | r :: l' => Alt r (alts l')
  end.

Fixpoint lit_chars (l : list ascii) : regex :=
  match l with
  | [] => Eps
  | [c] => Chr c
  | c :: l' => Seq (Chr c) (lit_chars l')
  end.

(** The characters of [s] in sequence. *)
Definition lit (s : string) : regex := lit_chars (chars s).

(** [(w1|w2|...)] *)
Definition words (l : list string) : regex := alts (map lit l).

(** A position in the subject: the code unit before it, if any, and
    the code units from it on. *)
Record pos : Type := { prev : option ascii; rest : list ascii }.

Definition start (l : list ascii) : pos := {| prev := None; rest := l |}.

Definition step (c : ascii) (l : list ascii) : pos :=
  {| prev := Some c; rest := l |}.

(** The position after the code units [w]. *)
Fixpoint after (w : list ascii) (p : pos) : pos :=
  match w with
  | [] => p
  | c :: w' => after w' (step c (tail (rest p)))
  end.

(** [.*] written as a recursion on the subject: the longest run of
    code units that are no line terminators first, then shorter ones. *)
Fixpoint dots (k : pos -> option pos) (pv : option ascii) (l : list ascii)
  : option pos :=
  match l with
  | c :: l' =>
      if negb (is_line_terminator c) then
        match dots k (Some c) l' with
        | Some e => Some e
        | None => k {| prev := pv; rest := l |}
        end
      else k {| prev := pv; rest := l |}
  | [] => k {| prev := pv; rest := [] |}
  end.

Definition word_before (p : pos) : bool :=
  match prev p with Some c => is_word c | None => false end.

Definition word_after (p : pos) : bool :=
  match rest p with c :: _ => is_word c | [] => false end.

Definition one (ok : ascii -> bool) (p : pos) (k : pos -> option pos)
  : option pos :=
  match rest p with
  | c :: l => if ok c then k (step c l) else None
  | [] => None
  end.

(** The iterations of [r*], [m] being the matcher of [r]: one more
    iteration is tried before the continuation, and an iteration that
    consumes nothing is rejected.  [fuel] bounds the number of
    iterations; one more than the code units that remain is never
    used up, each iteration consuming one at least. *)
Fixpoint star_loop (m : pos -> (pos -> option pos) -> option pos)
  (k : pos -> option pos) (fuel : nat) (p : pos) : option pos :=
  match fuel with
  | O => k p
  | S fuel' =>
      match m p (fun p' =>
                   if (length (rest p') <? length (rest p))%nat
                   then star_loop m k fuel' p' else None) with
      | Some e => Some e
      | None => k p
      end
  end.

(** The backtracking matcher: [rmatch ic r p k] matches [r] at [p] and
    hands the position it reaches to the continuation [k]; it tries
    the alternatives in the order of the language (left alternative
    first, one more iteration before leaving a repetition).  [ic] is
    the [i] flag. *)
Fixpoint rmatch (ic : bool) (r : regex) (p : pos) (k : pos -> option pos)
  : option pos :=
  match r with
  | Eps => k p
  | Chr c =>
      one (fun x => if ic then Ascii.eqb (canonicalize x) (canonicalize c)
                    else Ascii.eqb x c) p k
  | Dot => one (fun x => negb (is_line_terminator x)) p k
  | Cls ok => one ok p k
  | Seq r1 r2 => rmatch ic r1 p (fun p' => rmatch ic r2 p' k)
  | Alt r1 r2 =>
      match rmatch ic r1 p k with
      | Some e => Some e
      | None => rmatch ic r2 p k
      end
  | Star r1 => star_loop (rmatch ic r1) k (S (length (rest p))) p
  | Bol => match prev p with None => k p | Some _ => None end
  | Eol => match rest p with [] => k p | _ :: _ => None end
  | WordB => if xorb (word_before p) (word_after p) then k p else None
  | NegLook r1 =>
      match rmatch ic r1 p Some with
      | Some _ => None
      | None => k p
      end
  end.

(** The matcher found a match. *)
Definition matched (o : option pos) : bool :=
  match o with Some _ => true | None => false end.

(** A match of [r] that starts at [p]: the number of code units it
    spans. *)
Definition match_at (ic : bool) (r : regex) (p : pos) : option nat :=
  match rmatch ic r p Some with
  | Some e => Some (length (rest p) - length (rest e))%nat
  | None => None
  end.

(** The leftmost match from [p] on. *)
Fixpoint search (ic : bool) (r : regex) (pv : option ascii) (l : list ascii)
  : bool :=
  match match_at ic r {| prev := pv; rest := l |} with
  | Some _ => true
  | None =>
      match l with
      | [] => false
      | c :: l' => search ic r (Some c) l'
      end
  end.

(** [re.test(s)] for a pattern without the [g] flag. *)
Definition test (ic : bool) (r : regex) (s : string) : bool :=
  search ic r None (chars s).

(** The matches of a [g] pattern, left to right: after a match the
    search goes on where the match ended, one code unit further when
    the match was empty.  [skip] counts the code units of the current
    match still to pass. *)
Fixpoint matches_from (ic : bool) (r : regex) (pv : option ascii)
  (l : list ascii) (skip : nat) : list (list ascii) :=
  match skip with
  | S n =>
      match l with
      | [] => []
      | c :: l' => matches_from ic r (Some c) l' n
      end
  | O =>
      match match_at ic r {| prev := pv; rest := l |} with
      | Some len =>
          firstn len l ::
          match l with
          | [] => []
          | c :: l' => matches_from ic r (Some c) l' (len - 1)
          end
      | None =>
          match l with
          | [] => []
          | c :: l' => matches_from ic r (Some c) l' 0
          end
      end
  end.

(** [(s.match(re) || [])] for a [g] pattern. *)
Definition match_all (ic : bool) (r : regex) (s : string) : list string :=
  map str (matches_from ic r None (chars s) 0).

(** The replacement text of [String.prototype.replace] for a pattern
    without groups: [$$] is a dollar, [$&] the match, [$`] and [$']
    what precedes and follows it; any other [$] stands for itself. *)
Fixpoint substitution (repl matched before after : list ascii) : list ascii :=
  match repl with
  | [] => []
  | c :: repl' =>
      let literal := c :: substitution repl' matched before after in
      if Ascii.eqb c "$" then
        match repl' with
        | d :: repl'' =>
            if Ascii.eqb d "$" then
              "$"%char :: substitution repl'' matched before after
            else if Ascii.eqb d "&" then
              matched ++ substitution repl'' matched before after
            else if Ascii.eqb d "`" then
              before ++ substitution repl'' matched before after
            else if Ascii.eqb d "'" then
              after ++ substitution repl'' matched before after
            else literal
        | [] => literal
        end
      else literal
  end.

(** [s.replace(re, repl)] for a [g] pattern; [seen] holds, reversed,
    the code units already passed. *)
Fixpoint replace_from (ic : bool) (r : regex) (repl : list ascii)
  (seen : list ascii) (l : list ascii) (skip : nat) : list ascii :=
  match skip with
  | S n =>
      match l with
      | [] => []
      | c :: l' => replace_from ic r repl (c :: seen) l' n
      end
  | O =>
      match match_at ic r {| prev := head seen; rest := l |} with
      | Some len =>
          substitution repl (firstn len l) (rev seen) (skipn len l) ++
          match l with
          | [] => []
          | c :: l' =>
              (if (len =? 0)%nat then [c] else []) ++
              replace_from ic r repl (c :: seen) l' (len - 1)
          end
      | None =>
          match l with
          | [] => []
          | c :: l' => c :: replace_from ic r repl (c :: seen) l' 0
          end
      end
  end.

(** [s.replace(re, repl)] for a pattern without the [g] flag, and
    [s.replace(pattern, repl)] for a string pattern: the leftmost
    match only. *)
Fixpoint replace_first_from (ic : bool) (r : regex) (repl : list ascii)
  (seen : list ascii) (l : list ascii) : list ascii :=
  match match_at ic r {| prev := head seen; rest := l |} with
  | Some len =>
      substitution repl (firstn len l) (rev seen) (skipn len l) ++ skipn len l
  | None =>
      match l with
      | [] => []
      | c :: l' => c :: replace_first_from ic r repl (c :: seen) l'
      end
  end.

Definition replace_first (ic : bool) (r : regex) (repl : string) (s : string)
  : string :=
  str (replace_first_from ic r (chars repl) [] (chars s)).

Definition replace_all (ic : bool) (r : regex) (repl : string) (s : string)
  : string :=
  str (replace_from ic r (chars repl) [] (chars s) 0).

(** [s.split(re)] for a pattern without groups.  [cur] holds,
    reversed, the piece being read; a match that is empty and starts
    where the previous one ended is passed over. *)
Fixpoint split_from (ic : bool) (r : regex) (pv : option ascii)
  (cur : list ascii) (l : list ascii) (skip : nat) : list (list ascii) :=
  match l with
  | [] => [rev cur]
  | c :: l' =>
      match skip with
      | S n => split_from ic r (Some c) cur l' n
      | O =>
          match match_at ic r {| prev := pv; rest := l |} with
          | Some O =>
              match cur with
              | [] => split_from ic r (Some c) [c] l' 0
              | _ :: _ => rev cur :: split_from ic r (Some c) [c] l' 0
              end
          | Some (S n) => rev cur :: split_from ic r (Some c) [] l' n
          | None => split_from ic r (Some c) (c :: cur) l' 0
          end
      end
  end.

Definition split (ic : bool) (r : regex) (s : string) : list string :=
  match chars s with
  | [] =>
      match match_at ic r (start []) with
      | Some _ => []
      | None => [""]
      end
  | l => map str (split_from ic r None [] l 0)
  end.

End Regex.

Import Regex.

(** ** Numbers and arrays *)

Module JsNum.

Local Open Scope Q_scope.

(** [Math.round]: the nearest integer, a tie going up. *)
Definition round (x : Q) : Z := Qfloor (x + (1 # 2)).

(** [Math.max(lo, Math.min(hi, x))] *)
Definition clampQ (lo hi x : Q) : Q := Qmax lo (Qmin hi x).

Definition ratio (a b : Z) : Q := inject_Z a / inject_Z b.

End JsNum.

Module JsArray.

Section Sort.
Context {A : Type}.
(** The comparator of [Array.prototype.sort]: a negative result puts
    its first argument first. *)
Variable cmp : A -> A -> Z.

Fixpoint insert_sorted (x : A) (l : list A) : list A :=
  match l with
  | [] => [x]
  | y :: l' => if (cmp y x <? 0)%Z then y :: insert_sorted x l' else x :: l
  end.

(** [l.sort(cmp)]; the sort is stable. *)
Definition sort (l : list A) : list A := foldr insert_sorted [] l.

End Sort.

(** [Math.ceil(k * n / d)] for naturals. *)
Definition ceil_div (n d : nat) : nat := ((n + d - 1) / d)%nat.

(** [l.slice(a, b)] and [l.slice(a)] for indices within [0, Infinity). *)
Definition slice {A} (a b : nat) (l : list A) : list A :=
  firstn (b - a) (skipn a l).
Definition slice_from {A} (a : nat) (l : list A) : list A := skipn a l.

End JsArray.

(** ** The analyzer (src/analyzer.js) *)

Module Analyzer.

Inductive issue_type : Type :=
| Length | Vagueness | Context | Role | Format | Specificity.

Inductive severity : Type := High | Medium | Low.

Definition issue_type_name (t : issue_type) : string :=
  match t with
  | Length => "length"
  | Vagueness => "vagueness"
  | Context => "context"
  | Role => "role"
  | Format => "format"
  | Specificity => "specificity"
  end.

Record Issue : Type := {
  i_type : issue_type;
  i_severity : severity;
  i_message : string;
  i_suggestion : string
}.

Record Metrics : Type := {
  characterCount : Z;
  wordCount : Z;
  sentenceCount : Z;
  paragraphCount : Z;
  averageWordsPerSentence : Q;
  readabilityScore : Q;
  complexityScore : Z;
  specificityScore : Z
}.

Record Suggestion : Type := {
  s_id : string;
  s_type : string;
  s_category : string;
  s_priority : Z;
  s_title : string;
  s_description : string;
  s_example : option string;
  s_template : bool
}.

(** [metrics] is [None] for the empty object [{}]. *)
Record Analysis : Type := {
  originalText : string;
  context : list (string * string);
  timestamp : Z;
  metrics : option Metrics;
  issues : list Issue;
  suggestions : list Suggestion;
  score : Z;
  category : string
}.

(** An argument of [analyze]: a string or some other value. *)
Inductive jsvalue : Type :=
| JString (s : string)
| JNull
| JUndefined
| JBool (b : bool)
| JNumber (n : Z)
| JObject.

(** *** this.patterns *)

Definition ws : regex := Cls is_space.
Definition digit : regex := Cls is_digit.
Definition any : regex := Cls (fun _ => true).
Definition one_of (s : string) : regex :=
  Cls (fun c => existsb (Ascii.eqb c) (chars s)).
Definition none_of (s : string) : regex :=
  Cls (fun c => negb (existsb (Ascii.eqb c) (chars s))).

(** Each pattern with its [i] flag. *)
Definition pattern : Type := bool * regex.

Definition ptest (p : pattern) (s : string) : bool := test (fst p) (snd p) s.

(* /(what|how|why|tell me about|explain)\s*$/i *)
Definition tooVague : pattern :=
  (true, seqs [words ["what"; "how"; "why"; "tell me about"; "explain"];
               Star ws; Eol]).

(* /^(?!.*\b(context|background|scenario|situation)\b).+$/i *)
Definition noContext : pattern :=
  (true, seqs [Bol;
               NegLook (seqs [Star Dot; WordB;
                              words ["context"; "background"; "scenario";
                                     "situation"];
                              WordB]);
               Plus Dot; Eol]).

(* /(general|basic|simple|quick|brief)\s+(help|info|explanation)/i *)
Definition needsSpecificity : pattern :=
  (true, seqs [words ["general"; "basic"; "simple"; "quick"; "brief"];
               Plus ws;
               words ["help"; "info"; "explanation"]]).

(* /^(?!.*(act as|you are|assume you|pretend|role of)).+$/i *)
Definition needsRole : pattern :=
  (true, seqs [Bol;
               NegLook (seqs [Star Dot;
                              words ["act as"; "you are"; "assume you";
                                     "pretend"; "role of"]]);
               Plus Dot; Eol]).

(* /^(?!.*(format|structure|organize|list|table|bullet)).+$/i *)
Definition needsFormat : pattern :=
  (true, seqs [Bol;
               NegLook (seqs [Star Dot;
                              words ["format"; "structure"; "organize";
                                     "list"; "table"; "bullet"]]);
               Plus Dot; Eol]).

(* /(example|sample|instance|demonstrate)/i *)
Definition needsExamples : pattern :=
  (true, words ["example"; "sample"; "instance"; "demonstrate"]).

(* /^(what|how|why|when|where|who|which|can you|could you|would you)/i *)
Definition question : pattern :=
  (true, seqs [Bol; words ["what"; "how"; "why"; "when"; "where"; "who";
                           "which"; "can you"; "could you"; "would you"]]).

(* /^(write|create|generate|make|build|design|develop)/i *)
Definition instruction : pattern :=
  (true, seqs [Bol; words ["write"; "create"; "generate"; "make"; "build";
                           "design"; "develop"]]).

(* /^(analyze|compare|evaluate|assess|review|examine)/i *)
Definition analysis : pattern :=
  (true, seqs [Bol; words ["analyze"; "compare"; "evaluate"; "assess";
                           "review"; "examine"]]).

(* /^(explain|describe|tell me|clarify)/i *)
Definition explanation : pattern :=
  (true, seqs [Bol; words ["explain"; "describe"; "tell me"; "clarify"]]).

(* /```[\s\S]*```|`[^`]+`/ *)
Definition hasCode : pattern :=
  (false, Alt (seqs [lit "```"; Star any; lit "```"])
              (seqs [Chr "`"; Plus (none_of "`"); Chr "`"])).

(* /\b\d+%|\$\d+|\d+\s*(users|customers|records|items)/i *)
Definition hasData : pattern :=
  (true, alts [seqs [WordB; Plus digit; Chr "%"];
               seqs [Chr "$"; Plus digit];
               seqs [Plus digit; Star ws;
                     words ["users"; "customers"; "records"; "items"]]]).

(** *** this.rules *)

Definition minLength : nat := 15.
Definition maxLength : nat := 2000.
Definition optimalLength : Z * Z := (50, 500).

(** The number of matches of a [g] pattern: [(text.match(re) || []).length]. *)
Definition count_matches (ic : bool) (r : regex) (s : string) : Z :=
  Z.of_nat (length (match_all ic r s)).

Definition len (s : string) : nat := String.length s.

(** *** countSyllables *)

Definition countSyllables (text : string) : Z :=
  let words := match_all false (seqs [WordB; Plus (Cls is_lower); WordB])
                 (toLowerCase text) in
  fold_left
    (fun syllables word =>
       let vowelGroups := match_all false (Plus (one_of "aeiouy")) word in
       let syllables :=
         syllables + (match vowelGroups with
                      | [] => 1
                      | _ :: _ => Z.of_nat (length vowelGroups)
                      end) in
       let syllables := if endsWith word "e" then syllables - 1 else syllables in
       if syllables <? 1 then 1 else syllables)
    words 0.

(** *** calculateReadability *)

Definition calculateReadability (text : string) : Q :=
  let words := Z.of_nat (length (split false (Plus ws) text)) in
  let sentences := Z.of_nat (length (split false (Plus (one_of ".!?")) text)) in
  let syllables := countSyllables text in
  if (words =? 0) || (sentences =? 0) then 0%Q
  else
    let avgSentenceLength := JsNum.ratio words sentences in
    let avgSyllablesPerWord := JsNum.ratio syllables words in
    let score := ((206835 # 1000) - (1015 # 1000) * avgSentenceLength
                  - (846 # 10) * avgSyllablesPerWord)%Q in
    JsNum.clampQ 0 100 score.

(** *** calculateComplexity *)

Definition calculateComplexity (text : string) : Z :=
  let score := 0 in
  let technicalWords :=
    count_matches true
      (seqs [WordB; words ["algorithm"; "implement"; "optimize"; "analyze";
                           "framework"; "architecture"]; WordB]) text in
  let score := score + technicalWords * 10 in
  let score := if ptest hasCode text then score + 20 else score in
  let requirements :=
    count_matches true
      (seqs [WordB; words ["and"; "also"; "additionally"; "furthermore";
                           "moreover"]; WordB]) text in
  let score := score + requirements * 5 in
  let conditionals :=
    count_matches true
      (seqs [WordB; words ["if"; "when"; "unless"; "provided"; "given"];
             WordB]) text in
  let score := score + conditionals * 3 in
  Z.min 100 score.

(** *** calculateSpecificity *)

Definition calculateSpecificity (text : string) : Z :=
  let score := 0 in
  let numbers := count_matches false (seqs [WordB; Plus digit; WordB]) text in
  let score := score + numbers * 5 in
  let specificTerms :=
    count_matches true
      (seqs [WordB; words ["exactly"; "precisely"; "specifically";
                           "particular"; "detailed"]; WordB]) text in
  let score := score + specificTerms * 10 in
  let score := if ptest needsExamples text then score + 15 else score in
  let score := if negb (ptest needsRole text) then score + 10 else score in
  let score := if negb (ptest needsFormat text) then score + 10 else score in
  Z.min 100 score.

(** *** calculateMetrics *)

Definition nonblank (s : string) : bool := (0 <? len (trim s))%nat.

Definition calculateMetrics (text : string) : Metrics :=
  let words :=
    filter (fun word => (0 <? len word)%nat = true)
      (split false (Plus ws) (trim text)) in
  let sentences :=
    filter (fun s => nonblank s = true)
      (split false (Plus (one_of ".!?")) text) in
  let paragraphs :=
    filter (fun p => nonblank p = true)
      (split false (seqs [Chr "010"; Star ws; Chr "010"]) text) in
  {| characterCount := Z.of_nat (len text);
     wordCount := Z.of_nat (length words);
     sentenceCount := Z.of_nat (length sentences);
     paragraphCount := Z.of_nat (length paragraphs);
     averageWordsPerSentence :=
       if (0 <? length sentences)%nat
       then JsNum.ratio (Z.of_nat (length words)) (Z.of_nat (length sentences))
       else 0%Q;
     readabilityScore := calculateReadability text;
     complexityScore := calculateComplexity text;
     specificityScore := calculateSpecificity text |}.

(** *** identifyIssues *)

Definition push {A} (l : list A) (x : A) : list A := l ++ [x].

Definition identifyIssues (text : string) : list Issue :=
  let issues := [] in
  let issues :=
    if (len text <? minLength)%nat then
      push issues
        {| i_type := Length; i_severity := High;
           i_message := "Prompt is too short and may lack necessary detail";
           i_suggestion := "Add more context and specific requirements" |}
    else if (maxLength <? len text)%nat then
      push issues
        {| i_type := Length; i_severity := Medium;
           i_message := "Prompt is very long and may be overwhelming";
           i_suggestion := "Consider breaking into smaller, focused requests" |}
    else issues in
  let issues :=
    if ptest tooVague text then
      push issues
        {| i_type := Vagueness; i_severity := High;
           i_message := "Prompt is too vague and generic";
           i_suggestion := "Be more specific about what you want to achieve" |}
    else issues in
  let issues :=
    if ptest noContext text && (30 <? len text)%nat then
      push issues
        {| i_type := Context; i_severity := Medium;
           i_message := "Prompt lacks background context";
           i_suggestion :=
             "Provide relevant background information or constraints" |}
    else issues in
  let issues :=
    if ptest needsRole text && (50 <? len text)%nat then
      push issues
        {| i_type := Role; i_severity := Low;
           i_message := "Could benefit from defining AI role or expertise";
           i_suggestion :=
             "Start with " ++ dq ++ "Act as a [role]" ++ dq ++ " or " ++ dq
             ++ "You are an expert in [field]" ++ dq |}
    else issues in
  let issues :=
    if ptest needsFormat text && (40 <? len text)%nat then
      push issues
        {| i_type := Format; i_severity := Low;
           i_message := "Output format not specified";
           i_suggestion :=
             "Specify desired format (list, table, paragraphs, etc.)" |}
    else issues in
  let issues :=
    if ptest needsSpecificity text then
      push issues
        {| i_type := Specificity; i_severity := Medium;
           i_message := "Request is too general";
           i_suggestion := "Replace general terms with specific requirements" |}
    else issues in
  issues.

(** *** categorizePrompt *)

Definition categorizePrompt (text : string) : string :=
  if ptest question text then "question"
  else if ptest instruction text then "instruction"
  else if ptest analysis text then "analysis"
  else if ptest explanation text then "explanation"
  else if ptest hasCode text then "technical"
  else if ptest hasData text then "data"
  else "general".

(** *** calculateScore

    [calculateScore(analysis)] reads [analysis.metrics] and
    [analysis.issues]; [analyze] calls it on an analysis whose metrics
    are those of [calculateMetrics]. *)

Definition penalty (score : Q) (issue : Issue) : Q :=
  match i_severity issue with
  | High => score - 15
  | Medium => score - 10
  | Low => score - 5
  end%Q.

Definition calculateScore (m : Metrics) (issues : list Issue) : Z :=
  let score := 50%Q in
  let wordCount := wordCount m in
  let score :=
    if (fst optimalLength <=? wordCount) && (wordCount <=? snd optimalLength)
    then (score + 20)%Q
    else if wordCount <? fst optimalLength then (score - 15)%Q
    else (score - 10)%Q in
  let score := fold_left penalty issues score in
  let score := (score + inject_Z (specificityScore m) * (3 # 10))%Q in
  let score := (score + readabilityScore m * (1 # 10))%Q in
  Z.max 0 (Z.min 100 (JsNum.round score)).

(** *** getSeverityPriority, getExampleForIssue *)

Definition getSeverityPriority (s : severity) : Z :=
  match s with
  | High => 90
  | Medium => 60
  | Low => 30
  end.

Definition nl : string := String (ascii_of_nat 10) "".

Definition getExampleForIssue (issueType : issue_type) (originalText : string)
  : string :=
  match issueType with
  | Length =>
      "Instead of: " ++ dq ++ substring0 30 originalText ++ "..." ++ dq ++ nl
      ++ "Try: " ++ dq
      ++ "I'm working on [context]. Please help me [specific request] by [method]. I need this for [purpose]."
  | Vagueness =>
      "Instead of: " ++ dq ++ "How do I do X?" ++ dq ++ nl ++ "Try: " ++ dq
      ++ "How do I implement X in [technology] for [use case] considering [constraints]?"
      ++ dq
  | Context =>
      "Add context like: " ++ dq
      ++ "I'm a [role] working on [project]. Given that [situation], I need to [goal]."
      ++ dq
  | Role =>
      "Start with: " ++ dq
      ++ "Act as a [expert type] with experience in [field]." ++ dq
  | Format =>
      "Specify format: " ++ dq
      ++ "Please provide your response as [format: bullet points/table/numbered list/etc.]"
      ++ dq
  | Specificity =>
      "Consider being more specific and providing additional context."
  end.

(** *** getCategorySpecificSuggestions, getTemplateSuggestions *)

Definition getCategorySpecificSuggestions (category text : string)
  : list Suggestion :=
  if String.eqb category "question" then
    [{| s_id := "question_context"; s_type := "enhancement";
        s_category := "context"; s_priority := 70;
        s_title := "Add background context";
        s_description :=
          "Provide relevant background information to get better answers";
        s_example :=
          Some "Include your experience level, current situation, or specific constraints";
        s_template := false |}]
  else if String.eqb category "instruction" then
    [{| s_id := "instruction_requirements"; s_type := "enhancement";
        s_category := "requirements"; s_priority := 80;
        s_title := "Specify detailed requirements";
        s_description :=
          "Include specific requirements, constraints, and success criteria";
        s_example :=
          Some "Add target audience, length requirements, style preferences, or technical constraints";
        s_template := false |}]
  else if String.eqb category "technical" then
    [{| s_id := "technical_environment"; s_type := "enhancement";
        s_category := "technical"; s_priority := 75;
        s_title := "Specify technical environment";
        s_description :=
          "Include programming language, framework, or platform details";
        s_example :=
          Some "Mention: language version, dependencies, deployment environment, or performance requirements";
        s_template := false |}]
  else [].

Definition getTemplateSuggestions (category text : string) : list Suggestion :=
  [{| s_id := "template_structured"; s_type := "template";
      s_category := "structure"; s_priority := 50;
      s_title := "Use structured prompt template";
      s_description := "Apply a proven template structure for better results";
      s_example := None;
      s_template := true |}].

(** *** generateSuggestions *)

Definition generateSuggestions (text : string) (context : list (string * string))
  : list Suggestion :=
  let issues := identifyIssues text in
  let category := categorizePrompt text in
  let suggestions :=
    map (fun issue =>
           {| s_id := "fix_" ++ issue_type_name (i_type issue);
              s_type := "improvement";
              s_category := issue_type_name (i_type issue);
              s_priority := getSeverityPriority (i_severity issue);
              s_title := i_message issue;
              s_description := i_suggestion issue;
              s_example := Some (getExampleForIssue (i_type issue) text);
              s_template := false |}) issues in
  let suggestions :=
    (suggestions ++ getCategorySpecificSuggestions category text)%list in
  let suggestions :=
    (suggestions ++ getTemplateSuggestions category text)%list in
  JsArray.sort (fun a b => s_priority b - s_priority a) suggestions.

(** *** createEmptyAnalysis, analyze *)

Definition createEmptyAnalysis (now : Z) : Analysis :=
  {| originalText := "";
     context := [];
     timestamp := now;
     metrics := None;
     issues := [];
     suggestions := [];
     score := 0;
     category := "general" |}.

(** [!text || typeof text !== 'string'] *)
Definition not_a_text (text : jsvalue) : bool :=
  match text with
  | JString s => String.eqb s ""
  | _ => true
  end.

(** [analyze(text, context)]; the call of [onAnalysisComplete], which
    hands the finished analysis to the user interface, is left out. *)
Definition analyze (now : Z) (text : jsvalue) (context : list (string * string))
  : Analysis :=
  match text with
  | JString s =>
      if not_a_text text then createEmptyAnalysis now
      else
        let m := calculateMetrics s in
        let issues := identifyIssues s in
        {| originalText := s;
           context := context;
           timestamp := now;
           metrics := Some m;
           issues := issues;
           suggestions := generateSuggestions s context;
           score := calculateScore m issues;
           category := categorizePrompt s |}
  | _ => createEmptyAnalysis now
  end.

End Analyzer.

(** ** The template manager (src/templates.js) *)

Module Templates.

Record Template : Type := {
  t_id : string;
  t_category : string;
  t_name : string;
  t_description : string;
  t_content : string;
  t_variables : list string;
  t_priority : Z;
  t_addresses : list string;
  t_isUserCreated : bool;
  t_usageCount : Z;
  t_lastUsed : option Z;
  t_createdAt : Z;
  t_updatedAt : Z
}.

Record Category : Type := {
  c_name : string;
  c_description : string;
  c_icon : string;
  c_templates : list string
}.

(** The state of a TemplateManager.  [objects] is the heap of the
    template objects and [next] the first free reference; the maps
    [templates] and [userTemplates] hold references, as the two [Map]s
    of the class hold objects that may be one and the same. *)
Record Store : Type := {
  objects : gmap nat Template;
  next : nat;
  templates : gmap string nat;
  categories : gmap string Category;
  userTemplates : gmap string nat;
  recentlyUsed : list string;
  favorites : list string
}.

(** The errors the class throws, each [new Error(message)]. *)
Inductive error : Type :=
| TemplateNotFound (templateId : string)
| CannotModifySystemTemplates
| CannotDeleteSystemTemplates.

Definition message (e : error) : string :=
  match e with
  | TemplateNotFound templateId => "Template not found: " ++ templateId
  | CannotModifySystemTemplates => "Cannot modify system templates"
  | CannotDeleteSystemTemplates => "Cannot delete system templates"
  end.

(** The taxonomy of the specification: an unknown template id is a
    NotFoundError, a change to a template that is not user-created a
    PermissionError. *)
Inductive error_kind : Type := NotFoundError | PermissionError.

Definition kind (e : error) : error_kind :=
  match e with
  | TemplateNotFound _ => NotFoundError
  | CannotModifySystemTemplates => PermissionError
  | CannotDeleteSystemTemplates => PermissionError
  end.

(** What a method call leaves: the value it returns or the error it
    throws. *)
Inductive result (A : Type) : Type :=
| Return (a : A)
| Throw (e : error).
Arguments Return {A} a.
Arguments Throw {A} e.

(** A value of a variable handed to [applyTemplate]. *)
Inductive value : Type :=
| VString (s : string)
| VUndefined
| VNull
| VBool (b : bool)
| VNumber (n : Z).

(** The truth value of [value] in [value || ...]. *)
Definition truthy (v : value) : bool :=
  match v with
  | VString s => negb (String.eqb s "")
  | VUndefined | VNull => false
  | VBool b => b
  | VNumber n => negb (n =? 0)
  end.

(** The string a replacement value is converted to. *)
Definition to_string (v : value) : string :=
  match v with
  | VString s => s
  | VUndefined => "undefined"
  | VNull => "null"
  | VBool true => "true"
  | VBool false => "false"
  | VNumber n => pretty n
  end.

(** *** getTemplate: [this.templates.get(templateId) || null] *)

Definition getTemplate (st : Store) (templateId : string) : option Template :=
  match templates st !! templateId with
  | Some ref => objects st !! ref
  | None => None
  end.

(** *** trackTemplateUsage *)

Definition trackTemplateUsage (now : Z) (templateId : string) (st : Store)
  : Store :=
  let recentlyUsed :=
    templateId :: filter (fun id => id ≠ templateId) (recentlyUsed st) in
  let recentlyUsed := firstn 20 recentlyUsed in
  let objects :=
    match templates st !! templateId with
    | Some ref =>
        match objects st !! ref with
        | Some template =>
            <[ref :=
               {| t_id := t_id template;
                  t_category := t_category template;
                  t_name := t_name template;
                  t_description := t_description template;
                  t_content := t_content template;
                  t_variables := t_variables template;
                  t_priority := t_priority template;
                  t_addresses := t_addresses template;
                  t_isUserCreated := t_isUserCreated template;
                  t_usageCount := t_usageCount template + 1;
                  t_lastUsed := Some now;
                  t_createdAt := t_createdAt template;
                  t_updatedAt := t_updatedAt template |}]> (objects st)
        | None => objects st
        end
    | None => objects st
    end in
  {| objects := objects;
     next := next st;
     templates := templates st;
     categories := categories st;
     userTemplates := userTemplates st;
     recentlyUsed := recentlyUsed;
     favorites := favorites st |}.

(** *** applyTemplate

    The names of the variables are identifiers, for which the pattern
    [new RegExp(`\\{${key}\\}`, 'g')] is the token [{key}] itself, and
    which an object lists in the order they were added. *)

(** [{...o, key: v}]: a key already there keeps its place. *)
Fixpoint assign (o : list (string * value)) (key : string) (v : value)
  : list (string * value) :=
  match o with
  | [] => [(key, v)]
  | (k, w) :: o' =>
      if String.eqb k key then (k, v) :: o' else (k, w) :: assign o' key v
  end.

(** [{ prompt: originalPrompt, original_prompt: originalPrompt, ...variables }] *)
Definition allVariables (originalPrompt : string)
  (variables : list (string * value)) : list (string * value) :=
  fold_left (fun o kv => assign o (fst kv) (snd kv)) variables
    [("prompt", VString originalPrompt);
     ("original_prompt", VString originalPrompt)].

Definition token (key : string) : regex := seqs [Chr "{"; lit key; Chr "}"].

(** [content.replace(regex, value || `[${key}]`)] *)
Definition substitute (content : string) (entry : string * value) : string :=
  let '(key, v) := entry in
  replace_all false (token key)
    (if truthy v then to_string v else "[" ++ key ++ "]") content.

Definition applyTemplate (now : Z) (templateId originalPrompt : string)
  (variables : list (string * value)) (st : Store) : result string * Store :=
  match getTemplate st templateId with
  | None => (Throw (TemplateNotFound templateId), st)
  | Some template =>
      let content := t_content template in
      let content :=
        fold_left substitute (allVariables originalPrompt variables) content in
      (Return content, trackTemplateUsage now templateId st)
  end.

(** *** updateTemplate *)

(** The [updates] of [updateTemplate]: the properties it sets. *)
Record Updates : Type := {
  u_id : option string;
  u_category : option string;
  u_name : option string;
  u_description : option string;
  u_content : option string;
  u_variables : option (list string);
  u_priority : option Z;
  u_addresses : option (list string);
  u_isUserCreated : option bool;
  u_usageCount : option Z;
  u_lastUsed : option (option Z);
  u_createdAt : option Z
}.

(** [{ ...template, ...updates, updatedAt: Date.now() }] *)
Definition merge (now : Z) (template : Template) (updates : Updates)
  : Template :=
  {| t_id := default (t_id template) (u_id updates);
     t_category := default (t_category template) (u_category updates);
     t_name := default (t_name template) (u_name updates);
     t_description := default (t_description template) (u_description updates);
     t_content := default (t_content template) (u_content updates);
     t_variables := default (t_variables template) (u_variables updates);
     t_priority := default (t_priority template) (u_priority updates);
     t_addresses := default (t_addresses template) (u_addresses updates);
     t_isUserCreated :=
       default (t_isUserCreated template) (u_isUserCreated updates);
     t_usageCount := default (t_usageCount template) (u_usageCount updates);
     t_lastUsed := default (t_lastUsed template) (u_lastUsed updates);
     t_createdAt := default (t_createdAt template) (u_createdAt updates);
     t_updatedAt := now |}.

Definition updateTemplate (now : Z) (templateId : string) (updates : Updates)
  (st : Store) : result unit * Store :=
  match getTemplate st templateId with
  | None => (Throw (TemplateNotFound templateId), st)
  | Some template =>
      if negb (t_isUserCreated template)
      then (Throw CannotModifySystemTemplates, st)
      else
        let updatedTemplate := merge now template updates in
        let ref := next st in
        (Return tt,
         {| objects := <[ref := updatedTemplate]> (objects st);
            next := S ref;
            templates := <[templateId := ref]> (templates st);
            categories := categories st;
            userTemplates := <[templateId := ref]> (userTemplates st);
            recentlyUsed := recentlyUsed st;
            favorites := favorites st |})
  end.

(** *** deleteTemplate *)

Definition deleteTemplate (templateId : string) (st : Store)
  : result unit * Store :=
  match getTemplate st templateId with
  | None => (Return tt, st)
  | Some template =>
      if negb (t_isUserCreated template)
      then (Throw CannotDeleteSystemTemplates, st)
      else
        let categories :=
          match categories st !! t_category template with
          | Some category =>
              <[t_category template :=
                 {| c_name := c_name category;
                    c_description := c_description category;
                    c_icon := c_icon category;
                    c_templates :=
                      filter (fun id => id ≠ templateId) (c_templates category)
                 |}]> (categories st)
          | None => categories st
          end in
        (Return tt,
         {| objects := objects st;
            next := next st;
            templates := delete templateId (templates st);
            categories := categories;
            userTemplates := delete templateId (userTemplates st);
            recentlyUsed :=
              filter (fun id => id ≠ templateId) (recentlyUsed st);
            favorites := filter (fun id => id ≠ templateId) (favorites st) |})
  end.

(** *** toggleFavorite

    [favorites] is a [Set]: [has] is membership, [delete] removes the
    element and [add] puts a new element last. *)

Definition set_has (s : list string) (x : string) : bool := bool_decide (x ∈ s).
Definition set_delete (s : list string) (x : string) : list string :=
  filter (fun y => y ≠ x) s.
Definition set_add (s : list string) (x : string) : list string :=
  if set_has s x then s else s ++ [x].

Definition toggleFavorite (templateId : string) (st : Store) : Store :=
  {| objects := objects st;
     next := next st;
     templates := templates st;
     categories := categories st;
     userTemplates := userTemplates st;
     recentlyUsed := recentlyUsed st;
     favorites :=
       if set_has (favorites st) templateId
       then set_delete (favorites st) templateId
       else set_add (favorites st) templateId |}.

End Templates.

(** ** The enhancement engine (class PromptEnhancer) *)

Module Enhancer.

Import Analyzer Templates.

(** *** this.strategies *)

Definition CONTEXT_ADDITION : string := "context_addition".
Definition ROLE_DEFINITION : string := "role_definition".
Definition FORMAT_SPECIFICATION : string := "format_specification".
Definition SPECIFICITY_BOOST : string := "specificity_boost".
Definition STRUCTURE_IMPROVEMENT : string := "structure_improvement".
Definition TEMPLATE_APPLICATION : string := "template_application".

Definition strategies : list string :=
  [CONTEXT_ADDITION; ROLE_DEFINITION; FORMAT_SPECIFICATION;
   SPECIFICITY_BOOST; STRUCTURE_IMPROVEMENT; TEMPLATE_APPLICATION].

Inductive suggestion_type : Type := IssueFix | Strategic | TemplateBased.

Inductive action : Type := Replace | Prefix | Suffix.

(** A suggestion of the enhancer; a property an object lacks is [None]. *)
Record Enhancement : Type := {
  e_id : string;
  e_type : suggestion_type;
  e_category : string;
  e_priority : Z;
  e_title : string;
  e_description : string;
  e_originalIssue : option Issue;
  e_template : option Template;
  e_enhancementType : option string;
  e_previewText : option string;
  e_action : option action
}.

(** [this.templates]: the templates of each category, when the
    object has a [categories] property. *)
Record Enhancer : Type := {
  categories : option (gmap string (list Template))
}.

(** The [options] of [enhance]. *)
Record Options : Type := {
  o_context : option string;
  o_role : option string;
  o_format : option string;
  o_template : option Template
}.

(** [Math.floor(Math.random() * 4)] *)
Inductive pick : Type := Pick0 | Pick1 | Pick2 | Pick3.

(** [o || d] for an optional string. *)
Definition or_default (o : option string) (d : string) : string :=
  match o with
  | Some s => if String.eqb s "" then d else s
  | None => d
  end.

Definition sentences_of (text : string) : list string :=
  filter (fun s => nonblank s = true) (split false (Plus (one_of ".!?")) text).

(** *** inferRole, inferDomain *)

Definition inferRole (text : string) : string :=
  let lowerText := toLowerCase text in
  if includes lowerText "code" || includes lowerText "program"
     || includes lowerText "develop"
  then "an experienced software developer"
  else if includes lowerText "design" || includes lowerText "ui"
          || includes lowerText "ux"
  then "a professional designer"
  else if includes lowerText "business" || includes lowerText "strategy"
          || includes lowerText "market"
  then "a business consultant"
  else if includes lowerText "write" || includes lowerText "content"
          || includes lowerText "blog"
  then "a professional writer"
  else if includes lowerText "analyze" || includes lowerText "data"
          || includes lowerText "research"
  then "a data analyst"
  else "an expert in the relevant field".

Definition inferDomain (text : string) : string :=
  let lowerText := toLowerCase text in
  if includes lowerText "code" || includes lowerText "programming"
  then "software development"
  else if includes lowerText "design" || includes lowerText "ui" then "design"
  else if includes lowerText "business" || includes lowerText "marketing"
  then "business"
  else if includes lowerText "data" || includes lowerText "analysis"
  then "data analysis"
  else if includes lowerText "writing" || includes lowerText "content"
  then "content creation"
  else "general problem-solving".

(** *** The transformations of [enhance] *)

Definition addContext (rnd : pick) (text : string) (options : Options) : string :=
  let context := or_default (o_context options) "a typical use case" in
  let prefix :=
    match rnd with
    | Pick0 => "Given the context of"
    | Pick1 => "In the situation where"
    | Pick2 => "Considering that"
    | Pick3 => "With the background that"
    end in
  prefix ++ " " ++ context ++ ", " ++ text.

Definition defineRole (text : string) (options : Options) : string :=
  let role :=
    match o_role options with
    | Some r => if String.eqb r "" then inferRole text else r
    | None => inferRole text
    end in
  "Act as " ++ role ++ ". " ++ text.

Definition specifyFormat (text : string) (options : Options) : string :=
  let format := or_default (o_format options) "a clear, well-structured response" in
  text ++ nl ++ nl ++ "Please provide your response as " ++ format ++ ".".

Definition replacements : list (string * string) :=
  [("help", "provide detailed guidance on");
   ("info", "comprehensive information about");
   ("explain", "explain in detail with examples");
   ("how", "what are the step-by-step instructions for");
   ("what", "what specifically");
   ("general", "specific and detailed");
   ("basic", "comprehensive");
   ("simple", "detailed yet clear")].

Definition boostSpecificity (text : string) (options : Options) : string :=
  fold_left
    (fun enhanced '(general, specific) =>
       replace_all true (seqs [WordB; lit general; WordB]) specific enhanced)
    replacements text.

Definition groupSentencesIntoSections (sentences : list string)
  : list (string * string) :=
  let half := JsArray.ceil_div (length sentences) 2 in
  [("context", join ". " (JsArray.slice 0 half sentences) ++ ".");
   ("request", join ". " (JsArray.slice_from half sentences) ++ ".")].

Definition improveStructure (text : string) (options : Options) : string :=
  let sentences := sentences_of text in
  if (length sentences <=? 2)%nat then text
  else
    let sections := groupSentencesIntoSections sentences in
    let structured :=
      fold_left
        (fun structured '(type, content) =>
           if String.eqb type "context"
           then structured ++ "**Context:**" ++ nl ++ content ++ nl ++ nl
           else if String.eqb type "request"
           then structured ++ "**Request:**" ++ nl ++ content ++ nl ++ nl
           else if String.eqb type "requirements"
           then structured ++ "**Requirements:**" ++ nl ++ content ++ nl ++ nl
           else structured ++ content ++ nl ++ nl)
        sections "" in
    trim structured.

Definition applyTemplate (text : string) (options : Options) : string :=
  match o_template options with
  | None => text
  | Some template => replace_all false (lit "{prompt}") text (t_content template)
  end.

Definition generalEnhancement (text : string) (options : Options) : string :=
  let enhanced := text in
  let enhanced :=
    if negb (includes (toLowerCase text) "please")
       && negb (includes (toLowerCase text) "thank")
    then "Please " ++ toLowerCase enhanced
    else enhanced in
  let enhanced :=
    if negb (includes (toLowerCase text) "specific")
       && negb (includes (toLowerCase text) "detail")
    then enhanced ++ " Please be specific and provide detailed information."
    else enhanced in
  enhanced.

(** *** enhance *)

Definition enhance (rnd : pick) (text enhancementType : string)
  (options : Options) : string :=
  if String.eqb enhancementType CONTEXT_ADDITION
  then addContext rnd text options
  else if String.eqb enhancementType ROLE_DEFINITION
  then defineRole text options
  else if String.eqb enhancementType FORMAT_SPECIFICATION
  then specifyFormat text options
  else if String.eqb enhancementType SPECIFICITY_BOOST
  then boostSpecificity text options
  else if String.eqb enhancementType STRUCTURE_IMPROVEMENT
  then improveStructure text options
  else if String.eqb enhancementType TEMPLATE_APPLICATION
  then applyTemplate text options
  else generalEnhancement text options.

(** *** The previews of the issue fixes *)

Definition generateLengthFix (text : string) (issue : Issue) : string :=
  if (len text <? 15)%nat then
    "I need help with " ++ text
    ++ ". Could you please provide detailed guidance including background information, step-by-step instructions, and practical examples?"
  else if (2000 <? len text)%nat then
    let sentences := sentences_of text in
    let key_sentences := JsArray.slice 0 3 sentences in
    join ". " key_sentences ++ ". Please provide a comprehensive response."
  else text.

Definition generateSpecificityFix (text : string) : string :=
  let enhanced :=
    replace_all true (seqs [WordB; words ["help"; "explain"; "tell me"]; WordB])
      "provide detailed guidance on" text in
  enhanced
  ++ " Please include specific examples, step-by-step instructions, and practical applications.".

Definition generateContextAddition (text : string) : string :=
  "Background: I'm working on a project where [provide your specific situation]. ".

Definition generateRoleDefinition (a : Analysis) : string :=
  let role := inferRole (originalText a) in
  "Act as " ++ role ++ ". ".

Definition generateFormatSpecification (text : string) : string :=
  nl ++ nl
  ++ "Please format your response with clear headings, bullet points for key information, and practical examples.".

(** *** getIssuePriority, createEnhancementForIssue *)

Definition getIssuePriority (issue : Issue) : Z :=
  match i_severity issue with
  | High => 90
  | Medium => 60
  | Low => 30
  end.

Definition createEnhancementForIssue (now : Z) (issue : Issue) (a : Analysis)
  : Enhancement :=
  let base (enhancementType : option string) (previewText : option string)
           (act : option action) :=
    {| e_id := "enhance_" ++ issue_type_name (i_type issue) ++ "_" ++ pretty now;
       e_type := IssueFix;
       e_category := issue_type_name (i_type issue);
       e_priority := getIssuePriority issue;
       e_title := "Fix: " ++ i_message issue;
       e_description := i_suggestion issue;
       e_originalIssue := Some issue;
       e_template := None;
       e_enhancementType := enhancementType;
       e_previewText := previewText;
       e_action := act |} in
  match i_type issue with
  | Length =>
      base (Some STRUCTURE_IMPROVEMENT)
        (Some (generateLengthFix (originalText a) issue)) (Some Replace)
  | Vagueness =>
      base (Some SPECIFICITY_BOOST)
        (Some (generateSpecificityFix (originalText a))) (Some Replace)
  | Context =>
      base (Some CONTEXT_ADDITION)
        (Some (generateContextAddition (originalText a))) (Some Prefix)
  | Role =>
      base (Some ROLE_DEFINITION) (Some (generateRoleDefinition a)) (Some Prefix)
  | Format =>
      base (Some FORMAT_SPECIFICATION)
        (Some (generateFormatSpecification (originalText a))) (Some Suffix)
  | Specificity => base None None None
  end.

(** *** The template suggestions *)

(** [mapping[category] || this.templateCategories.GENERAL]; a name
    that the mapping inherits from [Object.prototype] gives a value
    that is no category, [None]. *)
Definition inherited_names : list string :=
  ["constructor"; "hasOwnProperty"; "isPrototypeOf"; "propertyIsEnumerable";
   "toLocaleString"; "toString"; "valueOf"; "__proto__"; "__defineGetter__";
   "__defineSetter__"; "__lookupGetter__"; "__lookupSetter__"].

Definition mapCategoryToTemplate (category : string) : option string :=
  if String.eqb category "question" then Some "general"
  else if String.eqb category "instruction" then Some "general"
  else if String.eqb category "analysis" then Some "analysis"
  else if String.eqb category "explanation" then Some "academic"
  else if String.eqb category "technical" then Some "technical"
  else if String.eqb category "data" then Some "analysis"
  else if existsb (String.eqb category) inherited_names then None
  else Some "general".

Definition getTemplatesForCategory (e : Enhancer) (category : option string)
  : list Template :=
  match categories e, category with
  | Some cats, Some c => default [] (cats !! c)
  | _, _ => []
  end.

Definition calculateTemplatePriority (template : Template) (a : Analysis) : Z :=
  let priority := if t_priority template =? 0 then 50 else t_priority template in
  let priority := if score a <? 50 then priority + 20 else priority in
  let priority :=
    fold_left
      (fun priority issue =>
         if existsb (String.eqb (issue_type_name (i_type issue)))
              (t_addresses template)
         then priority + 15 else priority)
      (issues a) priority in
  Z.min 100 priority.

Definition applyTemplateToText (text : string) (template : Template) : string :=
  if String.eqb (t_content template) "" then text
  else
    replace_all false (lit "{requirements}") "[Your specific requirements here]"
      (replace_all false (lit "{context}") "[Your specific context here]"
         (replace_all false (lit "{prompt}") text (t_content template))).

Definition getTemplateSuggestions (e : Enhancer) (a : Analysis)
  : list Enhancement :=
  let category := mapCategoryToTemplate (category a) in
  let relevantTemplates := getTemplatesForCategory e category in
  map (fun template =>
         {| e_id := "template_" ++ t_id template;
            e_type := TemplateBased;
            e_category := "template";
            e_priority := calculateTemplatePriority template a;
            e_title := "Apply " ++ t_name template ++ " Template";
            e_description := t_description template;
            e_originalIssue := None;
            e_template := Some template;
            e_enhancementType := Some TEMPLATE_APPLICATION;
            e_previewText := Some (applyTemplateToText (originalText a) template);
            e_action := Some Replace |})
    relevantTemplates.

(** *** The strategic suggestions *)

Definition addStrategicContext (text : string) (a : Analysis) : string :=
  let domain := inferDomain text in
  let template := "Context: I'm working on {domain} and need {objective}. " in
  replace_first false (lit "{project}") "an important task"
    (replace_first false (lit "{role}") "professional"
       (replace_first false (lit "{purpose}") "a project"
          (replace_first false (lit "{objective}") "detailed guidance"
             (replace_first false (lit "{domain}") domain template)))).

Definition restructurePrompt (text : string) : string :=
  let sentences := sentences_of text in
  let n := length sentences in
  let context := JsArray.slice 0 (JsArray.ceil_div n 3) sentences in
  let request :=
    JsArray.slice (JsArray.ceil_div n 3) (JsArray.ceil_div (2 * n) 3) sentences in
  let requirements := JsArray.slice_from (JsArray.ceil_div (2 * n) 3) sentences in
  let structured := "" in
  let structured :=
    if (0 <? length context)%nat
    then structured ++ "**Context:**" ++ nl ++ join ". " context ++ "." ++ nl ++ nl
    else structured in
  let structured :=
    if (0 <? length request)%nat
    then structured ++ "**Request:**" ++ nl ++ join ". " request ++ "." ++ nl ++ nl
    else structured in
  let structured :=
    if (0 <? length requirements)%nat
    then structured ++ "**Requirements:**" ++ nl ++ join ". " requirements ++ "."
    else structured in
  structured.

Definition addExpertRole (text : string) (a : Analysis) : string :=
  let role := inferRole text in
  "Act as " ++ role ++ ". ".

(** [metrics.field > n]; a property the metrics lack compares false. *)
Definition metric_gt (m : option Metrics) (field : Metrics -> Z) (n : Z) : bool :=
  match m with
  | Some m => n <? field m
  | None => false
  end.

Definition getStrategicEnhancements (a : Analysis) : list Enhancement :=
  let suggestions := [] in
  let text := originalText a in
  let metrics := metrics a in
  let suggestions :=
    if (score a <? 60) && metric_gt metrics wordCount 10 then
      push suggestions
        {| e_id := "strategic_context";
           e_type := Strategic;
           e_category := "context";
           e_priority := 70;
           e_title := "Add Strategic Context";
           e_description :=
             "Provide background information to improve response quality";
           e_originalIssue := None;
           e_template := None;
           e_enhancementType := Some CONTEXT_ADDITION;
           e_previewText := Some (addStrategicContext text a);
           e_action := Some Prefix |}
    else suggestions in
  let suggestions :=
    if metric_gt metrics wordCount 100 && metric_gt metrics sentenceCount 5 then
      push suggestions
        {| e_id := "strategic_structure";
           e_type := Strategic;
           e_category := "structure";
           e_priority := 60;
           e_title := "Improve Structure";
           e_description :=
             "Organize prompt with clear sections and bullet points";
           e_originalIssue := None;
           e_template := None;
           e_enhancementType := Some STRUCTURE_IMPROVEMENT;
           e_previewText := Some (restructurePrompt text);
           e_action := Some Replace |}
    else suggestions in
  let suggestions :=
    if metric_gt metrics complexityScore 50
       && negb (includes (toLowerCase text) "act as") then
      push suggestions
        {| e_id := "strategic_role";
           e_type := Strategic;
           e_category := "role";
           e_priority := 65;
           e_title := "Define Expert Role";
           e_description := "Specify what type of expert should respond";
           e_originalIssue := None;
           e_template := None;
           e_enhancementType := Some ROLE_DEFINITION;
           e_previewText := Some (addExpertRole text a);
           e_action := Some Prefix |}
    else suggestions in
  suggestions.

(** *** prioritizeSuggestions, generateSuggestions *)

Definition typeOrder (t : suggestion_type) : Z :=
  match t with
  | IssueFix => 3
  | Strategic => 2
  | TemplateBased => 1
  end.

Definition compare_suggestions (a b : Enhancement) : Z :=
  if negb (e_priority b =? e_priority a) then e_priority b - e_priority a
  else typeOrder (e_type b) - typeOrder (e_type a).

Definition prioritizeSuggestions (suggestions : list Enhancement)
  : list Enhancement :=
  JsArray.sort compare_suggestions suggestions.

(** [generateSuggestions(analysis)], the [buildSuggestions] of the
    specification; the call of [onSuggestionsReady] is left out. *)
Definition generateSuggestions (now : Z) (e : Enhancer) (a : Analysis)
  : list Enhancement :=
  let suggestions := map (fun issue => createEnhancementForIssue now issue a) (issues a) in
  let templateSuggestions := getTemplateSuggestions e a in
  let suggestions := (suggestions ++ templateSuggestions)%list in
  let strategicSuggestions := getStrategicEnhancements a in
  let suggestions := (suggestions ++ strategicSuggestions)%list in
  prioritizeSuggestions suggestions.

End Enhancer.

(** ** The template manager, continued (src/templates.js)

    The functions that add templates and the queries over the
    category index, the favorites and the recency list.  The methods
    that walk a whole [Map] in its insertion order ([searchTemplates],
    [getTemplateSuggestions], [exportTemplates], [getCategories]) are
    not part of the model, a [gmap] keeping no such order. *)

Module Catalog.

Import Templates.

(** The errors of [addTemplate] and [importTemplates]. *)
Inductive format_error : Type :=
| InvalidTemplateFormat
| InvalidImportDataFormat.

Definition format_message (e : format_error) : string :=
  match e with
  | InvalidTemplateFormat => "Invalid template format"
  | InvalidImportDataFormat => "Invalid import data format"
  end.

Inductive checked (A : Type) : Type :=
| Done (a : A)
| Refused (e : format_error).
Arguments Done {A} a.
Arguments Refused {A} e.

(** The truth value of a string: it is not empty. *)
Definition filled (s : string) : bool := negb (String.eqb s "").

(** *** validateTemplate *)

Definition validateTemplate (template : Template) : bool :=
  filled (t_name template) && filled (t_content template)
  && filled (t_category template) && filled (t_description template).

(** *** generateTemplateId *)

(* name.toLowerCase().replace(/[^a-z0-9]+/g, '_').replace(/^_+|_+$/g, '') *)
Definition base_id (name : string) : string :=
  replace_all false
    (Alt (Seq Bol (Plus (Chr "_"))) (Seq (Plus (Chr "_")) Eol)) ""
    (replace_all false (Plus (Cls (fun c => negb (is_lower c || is_digit c))))
       "_" (toLowerCase name)).

(** The loop [while (this.templates.has(id))]; [fuel] bounds the
    number of its turns. *)
Fixpoint free_id (taken : gmap string nat) (base : string) (fuel : nat)
  (counter : nat) (id : string) : string :=
  match fuel with
  | O => id
  | S fuel' =>
      match taken !! id with
      | Some _ =>
          free_id taken base fuel' (S counter) (base ++ "_" ++ pretty counter)
      | None => id
      end
  end.

(** One turn more than the store has templates leaves the loop. *)
Definition generateTemplateId (st : Store) (name : string) : string :=
  let base := base_id name in
  free_id (templates st) base (S (size (templates st))) 1 base.

(** *** addTemplate

    The template handed in is a new object; an id or a creation time
    that the object lacks is the empty string or 0. *)

Definition addTemplate (now : Z) (template : Template) (st : Store)
  : checked string * Store :=
  if negb (validateTemplate template)
  then (Refused InvalidTemplateFormat, st)
  else
    let id :=
      if filled (t_id template) then t_id template
      else generateTemplateId st (t_name template) in
    let stored :=
      {| t_id := id;
         t_category := t_category template;
         t_name := t_name template;
         t_description := t_description template;
         t_content := t_content template;
         t_variables := t_variables template;
         t_priority := t_priority template;
         t_addresses := t_addresses template;
         t_isUserCreated := t_isUserCreated template;
         t_usageCount := t_usageCount template;
         t_lastUsed := t_lastUsed template;
         t_createdAt :=
           if t_createdAt template =? 0 then now else t_createdAt template;
         t_updatedAt := now |} in
    let ref := next st in
    let categories :=
      match categories st !! t_category template with
      | Some category =>
          if set_has (c_templates category) id then categories st
          else
            <[t_category template :=
               {| c_name := c_name category;
                  c_description := c_description category;
                  c_icon := c_icon category;
                  c_templates := c_templates category ++ [id] |}]>
              (categories st)
      | None => categories st
      end in
    (Done id,
     {| objects := <[ref := stored]> (objects st);
        next := S ref;
        templates := <[id := ref]> (templates st);
        categories := categories;
        userTemplates := userTemplates st;
        recentlyUsed := recentlyUsed st;
        favorites := favorites st |}).

(** [this.userTemplates.set(id, template)] for the object that
    [templates] holds under [id]. *)
Definition set_user_template (id : string) (st : Store) : Store :=
  match templates st !! id with
  | Some ref =>
      {| objects := objects st;
         next := next st;
         templates := templates st;
         categories := categories st;
         userTemplates := <[id := ref]> (userTemplates st);
         recentlyUsed := recentlyUsed st;
         favorites := favorites st |}
  | None => st
  end.

(** *** createUserTemplate *)

Definition createUserTemplate (now : Z) (templateData : Template) (st : Store)
  : checked string * Store :=
  let template :=
    {| t_id := generateTemplateId st (t_name templateData);
       t_category :=
         if filled (t_category templateData) then t_category templateData
         else "general";
       t_name := t_name templateData;
       t_description := t_description templateData;
       t_content := t_content templateData;
       t_variables := t_variables templateData;
       t_priority := t_priority templateData;
       t_addresses := t_addresses templateData;
       t_isUserCreated := true;
       t_usageCount := t_usageCount templateData;
       t_lastUsed := t_lastUsed templateData;
       t_createdAt := t_createdAt templateData;
       t_updatedAt := t_updatedAt templateData |} in
  match addTemplate now template st with
  | (Done templateId, st') => (Done templateId, set_user_template templateId st')
  | (Refused e, st') => (Refused e, st')
  end.

(** *** importTemplates *)

(** The [data] of [importTemplates]; [d_templates] is [None] when the
    property is missing or no array. *)
Record ImportData : Type := {
  d_templates : option (list Template);
  d_favorites : option (list string)
}.

Definition import_one (now : Z) (st : Store) (template : Template) : Store :=
  if validateTemplate template then
    match addTemplate now template st with
    | (Done id, st') =>
        if t_isUserCreated template then set_user_template id st' else st'
    | (Refused _, st') => st'
    end
  else st.

Definition import_favorite (st : Store) (id : string) : Store :=
  match templates st !! id with
  | Some _ =>
      {| objects := objects st;
         next := next st;
         templates := templates st;
         categories := categories st;
         userTemplates := userTemplates st;
         recentlyUsed := recentlyUsed st;
         favorites := set_add (favorites st) id |}
  | None => st
  end.

Definition importTemplates (now : Z) (data : ImportData) (st : Store)
  : checked unit * Store :=
  match d_templates data with
  | None => (Refused InvalidImportDataFormat, st)
  | Some l =>
      let st := fold_left (import_one now) l st in
      let st :=
        match d_favorites data with
        | Some ids => fold_left import_favorite ids st
        | None => st
        end in
      (Done tt, st)
  end.

(** *** getTemplatesByCategory, getFavoriteTemplates,
    getRecentlyUsedTemplates *)

Definition getTemplatesByCategory (st : Store) (categoryId : string)
  : list Template :=
  match categories st !! categoryId with
  | None => []
  | Some category => omap (getTemplate st) (c_templates category)
  end.

Definition getFavoriteTemplates (st : Store) : list Template :=
  omap (getTemplate st) (favorites st).

Definition getRecentlyUsedTemplates (limit : nat) (st : Store)
  : list Template :=
  omap (getTemplate st) (firstn limit (recentlyUsed st)).

End Catalog.

(** ** The overlay (src/ui/overlay.js): how a priority and a score are
    shown *)

Module Overlay.

Definition getPriorityClass (priority : Z) : string :=
  if 80 <=? priority then "high-priority"
  else if 50 <=? priority then "medium-priority"
  else "low-priority".

(** The label that [updateScore] writes beside the score. *)
Definition score_label (score : Z) : string :=
  if 80 <=? score then "Excellent"
  else if 60 <=? score then "Good"
  else "Needs Improvement".

End Overlay.

(** * The words of the specification, and sample data *)

Import Analyzer Templates.

Module Spec.

#[global] Instance severity_eq_dec : EqDecision severity.
Proof. solve_decision. Defined.

#[global] Instance issue_type_eq_dec : EqDecision issue_type.
Proof. solve_decision. Defined.

(** The number of issues of a severity. *)
Definition count_severity (sev : severity) (l : list Issue) : Z :=
  Z.of_nat (length (filter (fun i => i_severity i = sev) l)).

(** The bonus or penalty for the length: +20 for a word count within
    [50, 500], -15 below 50, -10 above 500. *)
Definition length_term (wordCount : Z) : Z :=
  if (50 <=? wordCount) && (wordCount <=? 500) then 20
  else if wordCount <? 50 then -15
  else -10.

(** The score formula of the specification, before rounding. *)
Definition raw_score (m : Metrics) (l : list Issue) : Q :=
  (inject_Z (50 + length_term (wordCount m)
             - 15 * count_severity High l
             - 10 * count_severity Medium l
             - 5 * count_severity Low l)
   + (3 # 10) * inject_Z (specificityScore m)
   + (1 # 10) * readabilityScore m)%Q.

(** ... rounded and clamped to [0, 100]. *)
Definition score_formula (m : Metrics) (l : list Issue) : Z :=
  Z.max 0 (Z.min 100 (JsNum.round (raw_score m l))).

(** A name made of letters, digits and underscores. *)
Definition identifier (key : string) : bool := forallb is_word (chars key).

(** The token [{key}] and the placeholder [[key]]. *)
Definition brace (key : string) : string := "{" ++ key ++ "}".

(** The code units of the token [{key}]. *)
Definition token_chars (key : string) : list ascii :=
  ("{"%char :: chars key ++ ["}"%char])%list.

(** [Rewritten tok ok l out]: [out] is [l] with every occurrence of
    [tok], read from the left and without overlap, replaced by a text
    that [ok] accepts, and every other code unit kept. *)
Inductive Rewritten (tok : list ascii) (ok : list ascii → Prop)
  : list ascii → list ascii → Prop :=
| rw_nil : Rewritten tok ok [] []
| rw_match (b out rep : list ascii) :
    ok rep → Rewritten tok ok b out →
    Rewritten tok ok (tok ++ b) (rep ++ out)
| rw_copy (c : ascii) (l out : list ascii) :
    prefix_of tok (c :: l) = false → Rewritten tok ok l out →
    Rewritten tok ok (c :: l) (c :: out).

(** The text contains the word, whatever the case of its letters. *)
Definition mentions (text word : string) : bool :=
  includes (toLowerCase text) word.

(** The text holds one of the context keywords of the pattern
    [noContext], as a whole word and whatever the case. *)
Definition has_context_keyword (text : string) : bool :=
  test true
    (seqs [WordB; words ["context"; "background"; "scenario"; "situation"];
           WordB]) text.

(** The text holds no line terminator. *)
Definition single_line (text : string) : bool :=
  forallb (fun c => negb (is_line_terminator c)) (chars text).

(** The analysis reports an issue of the type. *)
Definition reports (t : issue_type) (a : Analysis) : bool :=
  existsb (fun i => bool_decide (i_type i = t)) (issues a).

(** The number of issues of the type that the analysis reports. *)
Definition count_reports (t : issue_type) (a : Analysis) : nat :=
  length (filter (fun i => i_type i = t) (issues a)).

(** The role phrases, those of the pattern [needsRole]. *)
Definition role_phrases : list string :=
  ["act as"; "you are"; "assume you"; "pretend"; "role of"].

(** The text holds a role phrase, whatever the case. *)
Definition has_role_phrase (text : string) : bool :=
  existsb (mentions text) role_phrases.

(** The list holds a strategic suggestion of the enhancement type. *)
Definition has_strategic (enhancementType : string)
  (l : list Enhancer.Enhancement) : bool :=
  existsb
    (fun s =>
       match Enhancer.e_type s, Enhancer.e_enhancementType s with
       | Enhancer.Strategic, Some ty => String.eqb ty enhancementType
       | _, _ => false
       end) l.

End Spec.

(** ** Sample data *)

Definition system_template : Template :=
  {| t_id := "t1"; t_category := "technical"; t_name := "Language";
     t_description := "Names the language"; t_content := "Lang: {language}";
     t_variables := ["language"]; t_priority := 80; t_addresses := ["context"];
     t_isUserCreated := false; t_usageCount := 0; t_lastUsed := None;
     t_createdAt := 1; t_updatedAt := 1 |}.

Definition topic_template : Template :=
  {| t_id := "about"; t_category := "general"; t_name := "About";
     t_description := "Asks about a topic";
     t_content := "Tell me about {topic}: {prompt}";
     t_variables := ["topic"]; t_priority := 50; t_addresses := [];
     t_isUserCreated := true; t_usageCount := 0; t_lastUsed := None;
     t_createdAt := 2; t_updatedAt := 2 |}.

Definition sample_store : Store :=
  {| objects := {[ 0%nat := system_template; 1%nat := topic_template ]};
     next := 2;
     templates := {[ "t1" := 0%nat; "about" := 1%nat ]};
     Templates.categories :=
       {[ "technical" :=
            {| c_name := "Technical";
               c_description := "Templates for coding and technical questions";
               c_icon := "T"; c_templates := ["t1"] |};
          "general" :=
            {| c_name := "General Purpose";
               c_description := "Versatile templates for common requests";
               c_icon := "G"; c_templates := ["about"] |} ]};
     userTemplates := {[ "about" := 1%nat ]};
     recentlyUsed := ["t1"];
     favorites := ["t1"; "about"] |}.

(** A prompt of two lines that names no context keyword. *)
Definition two_line_prompt : string :=
  "Summarize the quarterly report" ++ nl ++ "for the finance team please".

(** The same prompt on one line. *)
Definition one_line_prompt : string :=
  "Summarize the quarterly report for the finance team please".

(** A prompt that assigns a role with the phrase [You are]. *)
Definition role_prompt : string :=
  "You are a senior engineer. Implement and optimize the algorithm, analyze the framework architecture and implement it.".

(** A paragraph of 120 words in 6 sentences, without a role phrase. *)
Definition long_prompt : string :=
  "Please implement a caching layer for the reporting service and optimize the slowest queries that feed the monthly finance dashboard. "
  ++ "The current architecture keeps every request synchronous and the framework blocks while the database scans large tables without any index. "
  ++ "I would like a design that stores computed aggregates and also refreshes them when the underlying rows change during the night. "
  ++ "The algorithm that merges partial results must stay deterministic so that two runs over the same input always agree. "
  ++ "Describe the trade offs between memory use and latency and explain where the main risks of stale data come from. "
  ++ "Finish with a short migration plan that the team can follow in small steps over the next two product releases.".

Definition no_templates : Enhancer.Enhancer := {| Enhancer.categories := None |}.

(** * Properties *)

(** ** The guard of the analyzer *)

(** C4: for the empty string, for null and for every value that is
    not a string, [analyze] returns the zeroed analysis: score 0,
    category "general", no issues, no suggestions and empty metrics.
    [analyze] is a total function: no input makes it fail. *)
Theorem analyze_empty_input (now : Z) (text : jsvalue) (ctx : list (string * string)) :
  text = JString "" ∨ (∀ s, text ≠ JString s) →
  let a := analyze now text ctx in
  score a = 0 ∧ category a = "general" ∧ issues a = [] ∧ suggestions a = []
  ∧ metrics a = None ∧ a = createEmptyAnalysis now.
Proof.
  intros [-> | Hns]; cbn.
  - repeat split.
  - destruct text as [s | | | b | n |]; cbn; try (repeat split; fail).
    exfalso. by apply (Hns s).
Qed.

Lemma analyze_empty_input_witness :
  score (analyze 7 JNull []) = 0
  ∧ category (analyze 7 (JString "") []) = "general"
  ∧ suggestions (analyze 7 (JNumber 3) []) = [].
Proof.
  split; [| split].
  - apply (analyze_empty_input 7 JNull []). right. intros s Hs. discriminate Hs.
  - apply (analyze_empty_input 7 (JString "") []). left. reflexivity.
  - apply (analyze_empty_input 7 (JNumber 3) []). right. intros s Hs.
    discriminate Hs.
Defined.

(** ** Deleting and updating templates *)

(** C2, as the code has it: [deleteTemplate] of an id that the store
    does not hold returns without an error and leaves the store as it
    was. *)
Theorem deleteTemplate_unknown (st : Store) (templateId : string) :
  getTemplate st templateId = None →
  deleteTemplate templateId st = (Return tt, st).
Proof. intros H. unfold deleteTemplate. by rewrite H. Qed.

Lemma deleteTemplate_unknown_witness :
  deleteTemplate "ghost" sample_store = (Return tt, sample_store).
Proof. apply (deleteTemplate_unknown sample_store "ghost"). reflexivity. Defined.

(** C2 as stated fails: the id "ghost" is not in the store, and
    [deleteTemplate] throws no error, hence no NotFoundError. *)
Lemma deleteTemplate_unknown_no_error :
  getTemplate sample_store "ghost" = None
  ∧ ¬ (∃ e, (deleteTemplate "ghost" sample_store).1 = Throw e
            ∧ kind e = NotFoundError).
Proof.
  split; [reflexivity |].
  intros (e & He & _). vm_compute in He. discriminate He.
Qed.

(** C5: [updateTemplate] and [deleteTemplate] of a stored template
    that is not user-created throw a PermissionError and leave every
    part of the store as it was. *)
Theorem system_template_protected (now : Z) (st : Store) (templateId : string)
  (template : Template) (updates : Updates) :
  getTemplate st templateId = Some template →
  t_isUserCreated template = false →
  (∃ e, updateTemplate now templateId updates st = (Throw e, st)
        ∧ kind e = PermissionError)
  ∧ (∃ e, deleteTemplate templateId st = (Throw e, st)
          ∧ kind e = PermissionError).
Proof.
  intros Hget Hsys. unfold updateTemplate, deleteTemplate.
  rewrite Hget, Hsys. cbn. split; eexists; split; reflexivity.
Qed.

Lemma system_template_protected_witness :
  (∃ e, updateTemplate 9 "t1"
          {| u_id := None; u_category := None; u_name := Some "Renamed";
             u_description := None; u_content := None; u_variables := None;
             u_priority := None; u_addresses := None; u_isUserCreated := None;
             u_usageCount := None; u_lastUsed := None; u_createdAt := None |}
          sample_store = (Throw e, sample_store)
        ∧ kind e = PermissionError)
  ∧ (∃ e, deleteTemplate "t1" sample_store = (Throw e, sample_store)
          ∧ kind e = PermissionError).
Proof.
  apply (system_template_protected 9 sample_store "t1" system_template);
    reflexivity.
Defined.

(** ** Favorites *)

Lemma set_has_true (s : list string) (x : string) : set_has s x = true ↔ x ∈ s.
Proof. unfold set_has. apply bool_decide_eq_true. Qed.

Lemma set_has_false (s : list string) (x : string) : set_has s x = false ↔ x ∉ s.
Proof. unfold set_has. apply bool_decide_eq_false. Qed.

Lemma elem_of_set_delete (s : list string) (x y : string) :
  y ∈ set_delete s x ↔ y ≠ x ∧ y ∈ s.
Proof. unfold set_delete. by rewrite list_elem_of_filter. Qed.

Lemma set_delete_absent (s : list string) (x : string) :
  x ∉ s → set_delete s x = s.
Proof.
  unfold set_delete. induction s as [| y s IH]; intros Hx; [done |].
  apply not_elem_of_cons in Hx as [Hne Hx].
  rewrite filter_cons_True by congruence. by rewrite IH.
Qed.

Lemma set_delete_add (s : list string) (x : string) :
  x ∉ s → set_delete (s ++ [x])%list x = s.
Proof.
  intros Hx. unfold set_delete. rewrite filter_app.
  fold (set_delete s x). rewrite set_delete_absent by done.
  rewrite filter_cons_False by (intros H; by apply H).
  cbn. apply app_nil_r.
Qed.

Lemma favorites_toggle (templateId : string) (st : Store) :
  favorites (toggleFavorite templateId st)
  = if set_has (favorites st) templateId
    then set_delete (favorites st) templateId
    else (favorites st ++ [templateId])%list.
Proof.
  cbn. unfold set_add. by destruct (set_has (favorites st) templateId).
Qed.

(** C8: one call of [toggleFavorite] puts the id in the set when it
    is absent and takes it out when it is present, touching no other
    id; two calls in a row give back the set with the contents it had:
    the same ids, none twice. *)
Theorem toggleFavorite_twice (templateId : string) (st : Store) :
  NoDup (favorites st) →
  let st1 := toggleFavorite templateId st in
  let st2 := toggleFavorite templateId st1 in
  (∀ x, x ∈ favorites st2 ↔ x ∈ favorites st)
  ∧ NoDup (favorites st2)
  ∧ favorites st2 ≡ₚ favorites st
  ∧ (templateId ∈ favorites st1 ↔ templateId ∉ favorites st)
  ∧ (∀ x, x ≠ templateId → x ∈ favorites st1 ↔ x ∈ favorites st).
Proof.
  intros Hnd st1 st2.
  assert (H1 : ∀ x, x ∈ favorites st1
                    ↔ (x = templateId ∧ templateId ∉ favorites st)
                      ∨ (x ≠ templateId ∧ x ∈ favorites st)).
  { intros x. subst st1. rewrite favorites_toggle.
    destruct (set_has (favorites st) templateId) eqn:Hhas.
    - apply set_has_true in Hhas. rewrite elem_of_set_delete. naive_solver.
    - apply set_has_false in Hhas. rewrite elem_of_app, list_elem_of_singleton.
      destruct (decide (x = templateId)); naive_solver. }
  assert (Hnd1 : NoDup (favorites st1)).
  { subst st1. rewrite favorites_toggle.
    destruct (set_has (favorites st) templateId) eqn:Hhas.
    - by apply NoDup_filter.
    - apply set_has_false in Hhas. apply NoDup_app. split; [done |].
      split; [| apply NoDup_singleton].
      intros x Hx Hx'. apply list_elem_of_singleton in Hx'. by subst. }
  assert (H2 : ∀ x, x ∈ favorites st2 ↔ x ∈ favorites st).
  { intros x. subst st2. rewrite favorites_toggle.
    destruct (set_has (favorites st1) templateId) eqn:Hhas.
    - apply set_has_true in Hhas. rewrite elem_of_set_delete, H1.
      apply H1 in Hhas. naive_solver.
    - apply set_has_false in Hhas. rewrite elem_of_app, list_elem_of_singleton, H1.
      rewrite H1 in Hhas.
      destruct (decide (x = templateId)) as [-> |];
        destruct (decide (templateId ∈ favorites st)); naive_solver. }
  assert (Hnd2 : NoDup (favorites st2)).
  { subst st2. rewrite favorites_toggle.
    destruct (set_has (favorites st1) templateId) eqn:Hhas.
    - by apply NoDup_filter.
    - apply set_has_false in Hhas. apply NoDup_app. split; [done |].
      split; [| apply NoDup_singleton].
      intros x Hx Hx'. apply list_elem_of_singleton in Hx'. by subst. }
  split; [done |]. split; [done |].
  split; [by apply NoDup_Permutation |].
  split; [rewrite H1; naive_solver |].
  intros x Hx. rewrite H1. naive_solver.
Qed.

Lemma toggleFavorite_twice_witness :
  favorites (toggleFavorite "t1" (toggleFavorite "t1" sample_store))
  ≡ₚ favorites sample_store.
Proof.
  apply (toggleFavorite_twice "t1" sample_store).
  cbn. repeat constructor; set_solver.
Defined.

(** ** Strings *)

Lemma chars_str (l : list ascii) : chars (str l) = l.
Proof. apply list_ascii_of_string_of_list_ascii. Qed.

Lemma str_chars (s : string) : str (chars s) = s.
Proof. apply string_of_list_ascii_of_string. Qed.

Lemma chars_app (a b : string) : chars (a ++ b) = (chars a ++ chars b)%list.
Proof.
  unfold chars. induction a as [| c a IH]; [done |].
  change (c :: list_ascii_of_string (a ++ b)
          = c :: (list_ascii_of_string a ++ list_ascii_of_string b)%list).
  by rewrite IH.
Qed.

Lemma append_empty_r (s : string) : s ++ "" = s.
Proof.
  induction s as [| c s IH]; [done |].
  change (String c (s ++ "") = String c s). by rewrite IH.
Qed.

(** ** The default of [enhance] *)

(** C10: for an enhancement type that is none of the six strategies,
    [enhance] returns the general enhancement of the text: the text,
    in lower case after the prefix "Please " when it mentions neither
    "please" nor "thank", followed by the request for specifics when
    it mentions neither "specific" nor "detail".  [enhance] is a total
    function: the call cannot fail. *)
Theorem enhance_default (rnd : Enhancer.pick) (text enhancementType : string)
  (options : Enhancer.Options) :
  enhancementType ∉ Enhancer.strategies →
  Enhancer.enhance rnd text enhancementType options
  = Enhancer.generalEnhancement text options
  ∧ Enhancer.generalEnhancement text options
    = (if Spec.mentions text "please" || Spec.mentions text "thank"
       then text else "Please " ++ toLowerCase text)
      ++ (if Spec.mentions text "specific" || Spec.mentions text "detail"
          then "" else " Please be specific and provide detailed information.").
Proof.
  intros Hty. split.
  - unfold Enhancer.enhance.
    repeat match goal with
    | |- context [String.eqb enhancementType ?s] =>
        destruct (String.eqb_spec enhancementType s) as [-> | _];
        [exfalso; apply Hty; unfold Enhancer.strategies; set_solver |]
    end.
    reflexivity.
  - unfold Enhancer.generalEnhancement, Spec.mentions.
    destruct (includes (toLowerCase text) "please"),
      (includes (toLowerCase text) "thank"),
      (includes (toLowerCase text) "specific"),
      (includes (toLowerCase text) "detail"); cbn [negb andb orb];
      by rewrite ?append_empty_r.
Qed.

Lemma enhance_default_witness :
  Enhancer.enhance Enhancer.Pick2 "Summarize THIS" "summarize"
    {| Enhancer.o_context := None; Enhancer.o_role := None;
       Enhancer.o_format := None; Enhancer.o_template := None |}
  = "Please summarize this Please be specific and provide detailed information.".
Proof.
  etransitivity.
  - apply (enhance_default Enhancer.Pick2 "Summarize THIS" "summarize").
    unfold Enhancer.strategies. intros H.
    repeat (apply elem_of_cons in H as [H | H]; [discriminate H |]).
    by apply elem_of_nil in H.
  - reflexivity.
Defined.

(** ** The score *)

Section Score.

Local Open Scope Q_scope.

Lemma count_severity_cons (sev : severity) (i : Issue) (l : list Issue) :
  Spec.count_severity sev (i :: l)
  = ((if decide (i_severity i = sev) then 1 else 0)
     + Spec.count_severity sev l)%Z.
Proof.
  unfold Spec.count_severity. rewrite filter_cons.
  destruct (decide (i_severity i = sev)); cbn [length]; lia.
Qed.

(** The loop over the issues subtracts 15, 10 and 5 for each issue of
    high, medium and low severity. *)
Lemma fold_penalty (l : list Issue) (q : Q) :
  fold_left penalty l q
  == q - 15 * inject_Z (Spec.count_severity High l)
       - 10 * inject_Z (Spec.count_severity Medium l)
       - 5 * inject_Z (Spec.count_severity Low l).
Proof.
  revert q. induction l as [| i l IH]; intros q.
  - change (q == q - 15 * 0 - 10 * 0 - 5 * 0). ring.
  - cbn [fold_left]. rewrite IH, !count_severity_cons.
    unfold penalty.
    destruct (i_severity i); repeat case_decide; try congruence;
      rewrite !inject_Z_plus;
      change (inject_Z 1) with 1; change (inject_Z 0) with 0; ring.
Qed.

Lemma length_term_base (wc : Z) :
  (if (fst optimalLength <=? wc)%Z && (wc <=? snd optimalLength)%Z
   then 50 + 20
   else if (wc <? fst optimalLength)%Z then 50 - 15 else 50 - 10)
  == inject_Z (50 + Spec.length_term wc).
Proof.
  unfold Spec.length_term, optimalLength. cbn [fst snd].
  destruct ((50 <=? wc)%Z && (wc <=? 500)%Z); [reflexivity |].
  destruct (wc <? 50)%Z; reflexivity.
Qed.

(** [calculateScore] computes the formula of the specification. *)
Lemma calculateScore_formula (m : Metrics) (l : list Issue) :
  calculateScore m l = Spec.score_formula m l.
Proof.
  unfold calculateScore, Spec.score_formula, JsNum.round.
  do 2 f_equal. apply Qfloor_comp.
  apply Qplus_comp; [| reflexivity].
  rewrite fold_penalty, length_term_base. unfold Spec.raw_score.
  unfold Z.sub.
  rewrite ?inject_Z_plus, ?inject_Z_opp, ?inject_Z_mult.
  change (inject_Z 50) with 50. change (inject_Z 15) with 15.
  change (inject_Z 10) with 10. change (inject_Z 5) with 5. ring.
Qed.

Lemma calculateScore_range (m : Metrics) (l : list Issue) :
  (0 <= calculateScore m l <= 100)%Z.
Proof. unfold calculateScore. lia. Qed.

End Score.

(** C3: for a non-empty text the score of [analyze] is the formula of
    the specification on the metrics and the issues of the text: 50,
    plus 20 for a word count within [50, 500], minus 15 below 50,
    minus 10 above 500, minus 15, 10 and 5 for each issue of high,
    medium and low severity, plus 0.3 times the specificity score and
    0.1 times the readability score, rounded and clamped to [0, 100];
    so the score lies between 0 and 100. *)
Theorem analyze_score (now : Z) (text : string) (ctx : list (string * string)) :
  text ≠ "" →
  let a := analyze now (JString text) ctx in
  metrics a = Some (calculateMetrics text)
  ∧ issues a = identifyIssues text
  ∧ score a = Spec.score_formula (calculateMetrics text) (identifyIssues text)
  ∧ (0 <= score a <= 100)%Z.
Proof.
  intros Hne. cbn. apply String.eqb_neq in Hne. rewrite Hne. cbn.
  split; [done |]. split; [done |].
  split; [apply calculateScore_formula | apply calculateScore_range].
Qed.

Lemma analyze_score_witness :
  score (analyze 0 (JString "hi") []) = 30
  ∧ (0 <= score (analyze 0 (JString "hi") []) <= 100)%Z.
Proof.
  assert (H : "hi" ≠ "") by discriminate.
  destruct (analyze_score 0 "hi" [] H) as (_ & _ & Hs & Hr).
  split; [| exact Hr].
  rewrite Hs. vm_compute. reflexivity.
Defined.

(** ** The patterns of the form [^(?!.*X).+$] *)

Section Lookahead.

Implicit Types (l : list ascii) (p : pos) (k : pos → option pos).

(** The repetition [.*] of the matcher is the recursion [dots]. *)
Lemma star_loop_dot (ic : bool) k l :
  ∀ fuel pv, (length l < fuel)%nat →
    star_loop (rmatch ic Dot) k fuel {| prev := pv; rest := l |} = dots k pv l.
Proof.
  induction l as [| c l IH]; intros fuel pv Hf;
    (destruct fuel as [| fuel]; [lia |]); cbn [star_loop rmatch dots].
  - reflexivity.
  - unfold one. cbn [rest]. destruct (is_line_terminator c); cbn [negb]; [done |].
    unfold step. cbn [rest length].
    assert (Hlt : (length l <? S (length l))%nat = true)
      by (apply Nat.ltb_lt; lia).
    rewrite Hlt, IH by (cbn in Hf; lia). reflexivity.
Qed.

Lemma rmatch_star_dot (ic : bool) p k :
  rmatch ic (Star Dot) p k = dots k (prev p) (rest p).
Proof.
  destruct p as [pv l].
  change (rmatch ic (Star Dot) {| prev := pv; rest := l |} k)
    with (star_loop (rmatch ic Dot) k (S (length l)) {| prev := pv; rest := l |}).
  apply (star_loop_dot ic). cbn [rest]. lia.
Qed.

Lemma matched_search (ic : bool) (r : regex) (pv : option ascii) (c : ascii) l :
  search ic r pv (c :: l)
  = matched (rmatch ic r {| prev := pv; rest := c :: l |} Some)
    || search ic r (Some c) l.
Proof.
  cbn [search]. unfold match_at.
  by destruct (rmatch ic r {| prev := pv; rest := c :: l |} Some).
Qed.

Lemma matched_search_nil (ic : bool) (r : regex) (pv : option ascii) :
  search ic r pv [] = matched (rmatch ic r {| prev := pv; rest := [] |} Some).
Proof.
  cbn [search]. unfold match_at.
  by destruct (rmatch ic r {| prev := pv; rest := [] |} Some).
Qed.

(** On one line, [.*X] matches from a position where a search for [X]
    from that position on finds a match. *)
Lemma dots_search (ic : bool) (r : regex) (pv : option ascii) l :
  forallb (fun c => negb (is_line_terminator c)) l = true →
  matched (dots (fun p => rmatch ic r p Some) pv l) = search ic r pv l.
Proof.
  revert pv. induction l as [| c l IH]; intros pv Hl.
  - by rewrite matched_search_nil.
  - cbn [forallb] in Hl. apply andb_true_iff in Hl as [Hc Hl].
    rewrite matched_search. cbn [dots]. rewrite Hc, <- (IH (Some c)) by done.
    destruct (dots _ (Some c) l); cbn [matched]; [by rewrite orb_true_r |].
    by rewrite orb_false_r.
Qed.

(** [.+$] matches the rest of a line that is not empty. *)
Lemma dots_eol (pv : option ascii) l :
  matched (dots (fun p => rmatch true Eol p Some) pv l)
  = forallb (fun c => negb (is_line_terminator c)) l.
Proof.
  revert pv. induction l as [| c l IH]; intros pv; [done |].
  cbn [dots forallb]. destruct (is_line_terminator c); cbn [negb andb]; [done |].
  rewrite <- (IH (Some c)).
  by destruct (dots _ (Some c) l).
Qed.

Lemma plus_dot_eol (pv : option ascii) l :
  matched (rmatch true (Seq (Plus Dot) Eol) {| prev := pv; rest := l |} Some)
  = negb (bool_decide (l = []))
    && forallb (fun c => negb (is_line_terminator c)) l.
Proof.
  unfold Plus.
  change (rmatch true (Seq (Seq Dot (Star Dot)) Eol) ?p Some)
    with (rmatch true Dot p
            (fun p' => rmatch true (Star Dot) p'
                         (fun p'' => rmatch true Eol p'' Some))).
  cbn [rmatch]. unfold one. cbn [rest].
  destruct l as [| c l]; [done |]. cbn [forallb].
  destruct (is_line_terminator c); cbn [negb andb]; [done |].
  change (star_loop _ ?k (S (length (rest ?p))) ?p)
    with (rmatch true (Star Dot) p k).
  rewrite rmatch_star_dot. cbn [step prev rest]. rewrite dots_eol.
  case_bool_decide; done.
Qed.

Lemma search_bol_later (ic : bool) (r : regex) (c : ascii) l :
  search ic (Seq Bol r) (Some c) l = false.
Proof.
  revert c. induction l as [| d l IH]; intros c; [done |].
  rewrite matched_search, IH. reflexivity.
Qed.

(** A pattern [^(?!.*X).+$] matches a text that is one line, not
    empty, and in which a search for [X] finds nothing. *)
Lemma search_lookahead (x : regex) l :
  search true (seqs [Bol; NegLook (Seq (Star Dot) x); Plus Dot; Eol]) None l
  = negb (bool_decide (l = []))
    && forallb (fun c => negb (is_line_terminator c)) l
    && negb (search true x None l).
Proof.
  cbn [seqs].
  assert (H : search true
                (Seq Bol (Seq (NegLook (Seq (Star Dot) x)) (Seq (Plus Dot) Eol)))
                None l
              = matched
                  (rmatch true
                     (Seq Bol (Seq (NegLook (Seq (Star Dot) x))
                                 (Seq (Plus Dot) Eol)))
                     {| prev := None; rest := l |} Some)).
  { destruct l as [| c l]; [apply matched_search_nil |].
    rewrite matched_search, search_bol_later. apply orb_false_r. }
  rewrite H. clear H.
  change (rmatch true (Seq Bol (Seq (NegLook (Seq (Star Dot) x)) ?r)) ?p Some)
    with (match rmatch true (Star Dot) p (fun p' => rmatch true x p' Some) with
          | Some _ => None
          | None => rmatch true r p Some
          end).
  rewrite rmatch_star_dot. cbn [prev rest].
  pose proof (plus_dot_eol None l) as Hline.
  destruct (forallb (fun c => negb (is_line_terminator c)) l) eqn:Hl.
  - rewrite <- (dots_search true x None l Hl).
    destruct (dots _ None l); cbn [matched negb].
    + by rewrite andb_false_r.
    + rewrite Hline. by destruct (bool_decide (l = [])).
  - rewrite andb_false_r in Hline |- *.
    destruct (dots _ None l); [done | exact Hline].
Qed.

Lemma noContext_test (text : string) :
  ptest noContext text
  = negb (bool_decide (text = "")) && Spec.single_line text
    && negb (Spec.has_context_keyword text).
Proof.
  unfold ptest, noContext, test, Spec.single_line, Spec.has_context_keyword, test.
  cbn [fst snd].
  change (seqs [Bol; NegLook (seqs [Star Dot; WordB; ?w; WordB]); Plus Dot; Eol])
    with (seqs [Bol; NegLook (Seq (Star Dot) (seqs [WordB; w; WordB]));
                Plus Dot; Eol]).
  rewrite search_lookahead. do 3 f_equal.
  apply bool_decide_ext. by destruct text.
Qed.

Lemma existsb_if_push {A} (f : A → bool) (c : bool) (l : list A) (x : A) :
  existsb f (if c then push l x else l) = existsb f l || (c && f x).
Proof.
  destruct c; [| by rewrite orb_false_r].
  unfold push. rewrite existsb_app. cbn. by rewrite orb_false_r.
Qed.

Lemma count_if_push (t : issue_type) (c : bool) (l : list Issue) (x : Issue) :
  length (filter (fun i => i_type i = t) (if c then push l x else l))
  = (length (filter (fun i => i_type i = t) l)
     + if c && bool_decide (i_type x = t) then 1 else 0)%nat.
Proof.
  destruct c; [| cbn; lia].
  unfold push. rewrite filter_app, length_app. f_equal.
  rewrite filter_cons, filter_nil. cbn [andb].
  case_decide; case_bool_decide; done.
Qed.

(** What the code does for the context issue: it is reported, once,
    when the text is longer than 30 code units, holds no line
    terminator and no context keyword, and not reported otherwise. *)
Lemma context_issue_reported (now : Z) (text : string) (ctx : list (string * string)) :
  text ≠ "" →
  let a := analyze now (JString text) ctx in
  Spec.reports Context a
  = (30 <? len text)%nat && Spec.single_line text
    && negb (Spec.has_context_keyword text)
  ∧ Spec.count_reports Context a
    = (if Spec.reports Context a then 1 else 0)%nat.
Proof.
  intros Hne a.
  assert (Ha : issues a = identifyIssues text).
  { subst a. unfold analyze, not_a_text.
    apply String.eqb_neq in Hne. by rewrite Hne. }
  unfold Spec.reports, Spec.count_reports. rewrite Ha. clear a Ha.
  unfold identifyIssues. cbv zeta.
  rewrite !existsb_if_push, !count_if_push, noContext_test.
  rewrite (bool_decide_eq_false_2 (text = "")) by done. cbn [i_type negb andb].
  change (bool_decide (Vagueness = Context)) with false.
  change (bool_decide (Context = Context)) with true.
  change (bool_decide (Role = Context)) with false.
  change (bool_decide (Format = Context)) with false.
  change (bool_decide (Specificity = Context)) with false.
  rewrite !andb_false_r, !andb_true_r, !orb_false_r, !Nat.add_0_r.
  assert (Hfirst : ∀ l : list Issue,
            (l = [] ∨ ∃ s m g, l = push [] {| i_type := Length; i_severity := s;
                                              i_message := m; i_suggestion := g |}) →
            existsb (fun i => bool_decide (i_type i = Context)) l = false
            ∧ length (filter (fun i => i_type i = Context) l) = 0%nat).
  { intros l [-> | (s & m & g & ->)]; by split. }
  match goal with
  | |- existsb _ ?l || _ = _ ∧ _ =>
      destruct (Hfirst l) as [-> ->];
        [destruct (len text <? minLength)%nat;
           [right; by do 3 eexists |];
         destruct (maxLength <? len text)%nat;
           [right; by do 3 eexists | by left] |]
  end.
  cbn [orb Nat.add].
  destruct (Spec.single_line text), (Spec.has_context_keyword text),
    (30 <? len text)%nat; split; reflexivity.
Qed.

End Lookahead.

(** ** The context issue *)

(** C6, at a prompt of two lines: the prompt is longer than 30 code
    units and names no context keyword, and [analyze] reports no
    context issue, the [.] of the pattern [noContext] matching no line
    terminator; the same prompt on one line has the issue, once. *)
Theorem context_issue_two_lines :
  (30 <? len two_line_prompt)%nat = true
  ∧ Spec.has_context_keyword two_line_prompt = false
  ∧ Spec.reports Context (analyze 0 (JString two_line_prompt) []) = false
  ∧ Spec.has_context_keyword one_line_prompt = false
  ∧ Spec.count_reports Context (analyze 0 (JString one_line_prompt) []) = 1%nat.
Proof. vm_compute. repeat split. Qed.

(** ** The strategic suggestions *)

Section Sorting.
Context {A : Type} (cmp : A → A → Z).

Lemma elem_of_insert_sorted (x y : A) (l : list A) :
  y ∈ JsArray.insert_sorted cmp x l ↔ y = x ∨ y ∈ l.
Proof.
  induction l as [| z l IH]; cbn.
  - rewrite list_elem_of_singleton. set_solver.
  - destruct (cmp z x <? 0); rewrite !elem_of_cons; [rewrite IH |]; tauto.
Qed.

Lemma elem_of_sort (y : A) (l : list A) : y ∈ JsArray.sort cmp l ↔ y ∈ l.
Proof.
  unfold JsArray.sort. induction l as [| x l IH]; cbn; [done |].
  rewrite elem_of_insert_sorted, elem_of_cons, IH. tauto.
Qed.

Lemma existsb_sort (f : A → bool) (l : list A) :
  existsb f (JsArray.sort cmp l) = existsb f l.
Proof.
  apply eq_true_iff_eq. rewrite !existsb_exists.
  split; intros (x & Hx & Hf); exists x; split; try done;
    apply list_elem_of_In; apply list_elem_of_In in Hx; by apply elem_of_sort.
Qed.

End Sorting.

Lemma has_strategic_issue_fixes (now : Z) (a : Analysis) (ty : string)
  (l : list Issue) :
  Spec.has_strategic ty
    (map (fun issue => Enhancer.createEnhancementForIssue now issue a) l) = false.
Proof.
  unfold Spec.has_strategic.
  induction l as [| i l IH]; [done |].
  cbn [map existsb]. rewrite IH.
  unfold Enhancer.createEnhancementForIssue. by destruct (i_type i).
Qed.

Lemma has_strategic_templates (e : Enhancer.Enhancer) (a : Analysis) (ty : string) :
  Spec.has_strategic ty (Enhancer.getTemplateSuggestions e a) = false.
Proof.
  unfold Enhancer.getTemplateSuggestions, Spec.has_strategic.
  induction (Enhancer.getTemplatesForCategory _ _) as [| t l IH]; [done |].
  cbn [map existsb]. by rewrite IH.
Qed.

(** The strategic suggestions of [generateSuggestions] are those of
    [getStrategicEnhancements]. *)
Lemma has_strategic_generate (now : Z) (e : Enhancer.Enhancer) (a : Analysis)
  (ty : string) :
  Spec.has_strategic ty (Enhancer.generateSuggestions now e a)
  = Spec.has_strategic ty (Enhancer.getStrategicEnhancements a).
Proof.
  unfold Enhancer.generateSuggestions, Enhancer.prioritizeSuggestions,
    Spec.has_strategic.
  rewrite existsb_sort, !existsb_app.
  fold (Spec.has_strategic ty
          (map (fun issue => Enhancer.createEnhancementForIssue now issue a)
             (issues a))).
  fold (Spec.has_strategic ty (Enhancer.getTemplateSuggestions e a)).
  by rewrite has_strategic_issue_fixes, has_strategic_templates.
Qed.

Lemma has_strategic_conditions (a : Analysis) :
  Spec.has_strategic Enhancer.CONTEXT_ADDITION (Enhancer.getStrategicEnhancements a)
  = (score a <? 60) && Enhancer.metric_gt (metrics a) wordCount 10
  ∧ Spec.has_strategic Enhancer.STRUCTURE_IMPROVEMENT
      (Enhancer.getStrategicEnhancements a)
    = Enhancer.metric_gt (metrics a) wordCount 100
      && Enhancer.metric_gt (metrics a) sentenceCount 5
  ∧ Spec.has_strategic Enhancer.ROLE_DEFINITION
      (Enhancer.getStrategicEnhancements a)
    = Enhancer.metric_gt (metrics a) complexityScore 50
      && negb (Spec.mentions (originalText a) "act as").
Proof.
  unfold Enhancer.getStrategicEnhancements, Spec.mentions.
  destruct ((score a <? 60) && Enhancer.metric_gt (metrics a) wordCount 10),
    (Enhancer.metric_gt (metrics a) wordCount 100
     && Enhancer.metric_gt (metrics a) sentenceCount 5),
    (Enhancer.metric_gt (metrics a) complexityScore 50
     && negb (includes (toLowerCase (originalText a)) "act as"));
    repeat split.
Qed.

Lemma metric_gt_true (m : option Metrics) (field : Metrics → Z) (n : Z) :
  Enhancer.metric_gt m field n = true ↔ ∃ x, m = Some x ∧ n < field x.
Proof.
  unfold Enhancer.metric_gt. destruct m as [x |].
  - rewrite Z.ltb_lt. split; [eauto | by intros (? & [= <-] & ?)].
  - split; [done | by intros (? & ? & _)].
Qed.

(** C7, as the code has it: [generateSuggestions] gives a strategic
    context-addition suggestion exactly when the score is below 60
    and the word count above 10, a strategic structure-improvement
    suggestion exactly when the word count is above 100 and the
    sentence count above 5, and a strategic role-definition suggestion
    exactly when the complexity score is above 50 and the text, in
    lower case, does not hold "act as"; so an analysis of 120 words
    and 6 sentences with a complexity score above 50 and no role
    phrase gets both the role-definition and the
    structure-improvement suggestion. *)
Theorem strategic_suggestions (now : Z) (e : Enhancer.Enhancer) (a : Analysis) :
  let r := Enhancer.generateSuggestions now e a in
  (Spec.has_strategic Enhancer.CONTEXT_ADDITION r = true
   ↔ score a < 60 ∧ ∃ m, metrics a = Some m ∧ 10 < wordCount m)
  ∧ (Spec.has_strategic Enhancer.STRUCTURE_IMPROVEMENT r = true
     ↔ ∃ m, metrics a = Some m ∧ 100 < wordCount m ∧ 5 < sentenceCount m)
  ∧ (Spec.has_strategic Enhancer.ROLE_DEFINITION r = true
     ↔ (∃ m, metrics a = Some m ∧ 50 < complexityScore m)
       ∧ Spec.mentions (originalText a) "act as" = false)
  ∧ (∀ m, metrics a = Some m → wordCount m = 120 → sentenceCount m = 6 →
          50 < complexityScore m →
          Spec.has_role_phrase (originalText a) = false →
          Spec.has_strategic Enhancer.ROLE_DEFINITION r = true
          ∧ Spec.has_strategic Enhancer.STRUCTURE_IMPROVEMENT r = true).
Proof.
  intros r. subst r. rewrite !has_strategic_generate.
  destruct (has_strategic_conditions a) as (-> & -> & ->).
  rewrite !andb_true_iff, !metric_gt_true, Z.ltb_lt, negb_true_iff.
  split; [done |]. split.
  { split.
    - intros [(m & Hm & Hw) (m' & Hm' & Hs)]. exists m.
      rewrite Hm in Hm'. by injection Hm' as <-.
    - intros (m & Hm & Hw & Hs). split; by exists m. }
  split; [done |].
  intros m Hm Hw Hs Hc Hrole.
  unfold Spec.has_role_phrase, Spec.role_phrases in Hrole.
  cbn [existsb] in Hrole. apply orb_false_iff in Hrole as [Hact _].
  rewrite !andb_true_iff, !metric_gt_true, negb_true_iff.
  split; [split; [| exact Hact] |]; try split; exists m; (split; [done | lia]).
Qed.

Lemma strategic_suggestions_witness :
  let a := analyze 0 (JString long_prompt) [] in
  Spec.has_strategic Enhancer.ROLE_DEFINITION
    (Enhancer.generateSuggestions 0 no_templates a) = true
  ∧ Spec.has_strategic Enhancer.STRUCTURE_IMPROVEMENT
      (Enhancer.generateSuggestions 0 no_templates a) = true.
Proof.
  intros a.
  apply (strategic_suggestions 0 no_templates a) with (m := calculateMetrics long_prompt).
  - reflexivity.
  - vm_compute. reflexivity.
  - vm_compute. reflexivity.
  - vm_compute. reflexivity.
  - vm_compute. reflexivity.
Defined.

(** C7 as stated fails: the prompt [role_prompt] holds the role
    phrase "You are", which the pattern [needsRole] of the analyzer
    recognises, and its complexity score is above 50; the suggestions
    for its analysis hold a strategic role-definition suggestion all
    the same. *)
Lemma strategic_role_despite_role_phrase :
  let a := analyze 0 (JString role_prompt) [] in
  let r := Enhancer.generateSuggestions 0 no_templates a in
  Spec.has_role_phrase (originalText a) = true
  ∧ ptest needsRole role_prompt = false
  ∧ ¬ (Spec.has_strategic Enhancer.ROLE_DEFINITION r = true
       ↔ (∃ m, metrics a = Some m ∧ 50 < complexityScore m)
         ∧ Spec.has_role_phrase (originalText a) = false).
Proof.
  intros a r.
  assert (Hphrase : Spec.has_role_phrase (originalText a) = true)
    by (vm_compute; reflexivity).
  assert (Hrole : Spec.has_strategic Enhancer.ROLE_DEFINITION r = true)
    by (vm_compute; reflexivity).
  split; [exact Hphrase |]. split; [vm_compute; reflexivity |].
  intros [Hcontra _]. destruct (Hcontra Hrole) as [_ Hno].
  rewrite Hphrase in Hno. discriminate Hno.
Qed.

(** ** Literal patterns *)

Section Literal.

Implicit Types (w l b : list ascii) (p : pos) (k : pos → option pos).

Lemma rest_after w p :
  prefix_of w (rest p) = true → rest p = (w ++ rest (after w p))%list.
Proof.
  revert p. induction w as [| c w IH]; intros [pv l] H; [done |].
  cbn in *. destruct l as [| d l]; [done |].
  apply andb_true_iff in H as [Hc Hw]. apply Ascii.eqb_eq in Hc as ->.
  cbn. f_equal. by apply (IH (step d l)).
Qed.

Lemma rmatch_lit_cons (c : ascii) w p k :
  rmatch false (lit_chars (c :: w)) p k
  = rmatch false (Seq (Chr c) (lit_chars w)) p k.
Proof. by destruct w. Qed.

(** A literal matches where it is a prefix of what remains. *)
Lemma rmatch_lit w p k :
  rmatch false (lit_chars w) p k
  = if prefix_of w (rest p) then k (after w p) else None.
Proof.
  revert p. induction w as [| c w IH]; intros [pv l]; [done |].
  rewrite rmatch_lit_cons. cbn [rmatch]. unfold one. cbn [rest prefix_of].
  destruct l as [| d l]; [done |].
  rewrite Ascii.eqb_sym. destruct (Ascii.eqb_spec c d) as [<- | Hne]; [| done].
  rewrite IH. done.
Qed.

Lemma prefix_of_app w b : prefix_of w (w ++ b) = true.
Proof. induction w as [| c w IH]; [done |]. cbn. by rewrite Ascii.eqb_refl. Qed.

Lemma prefix_of_split w l :
  prefix_of w l = true → ∃ b, l = (w ++ b)%list.
Proof.
  revert l. induction w as [| c w IH]; intros l H; [by exists l |].
  destruct l as [| d l]; [done |]. cbn in H.
  apply andb_true_iff in H as [Hc Hw]. apply Ascii.eqb_eq in Hc as ->.
  destruct (IH l Hw) as [b ->]. by exists b.
Qed.

Lemma chars_brace (key : string) : chars (Spec.brace key) = Spec.token_chars key.
Proof.
  unfold Spec.brace, Spec.token_chars. rewrite !chars_app. reflexivity.
Qed.

Lemma one_ext (ok : ascii → bool) p k1 k2 :
  (∀ q, k1 q = k2 q) → one ok p k1 = one ok p k2.
Proof.
  intros H. unfold one. destruct (rest p) as [| c l]; [done |].
  destruct (ok c); [apply H | done].
Qed.

Lemma rmatch_lit_app w1 w2 p k :
  rmatch false (Seq (lit_chars w1) (lit_chars w2)) p k
  = rmatch false (lit_chars (w1 ++ w2)) p k.
Proof.
  revert p. induction w1 as [| c w1 IH]; intros p; [done |].
  change ((c :: w1) ++ w2)%list with (c :: (w1 ++ w2))%list.
  rewrite (rmatch_lit_cons c (w1 ++ w2)).
  change (rmatch false (Seq (lit_chars (c :: w1)) (lit_chars w2)) p k)
    with (rmatch false (lit_chars (c :: w1)) p
            (fun p' => rmatch false (lit_chars w2) p' k)).
  rewrite rmatch_lit_cons. cbn [rmatch]. apply one_ext. intros q.
  rewrite <- IH. reflexivity.
Qed.

Lemma rmatch_token (key : string) p k :
  rmatch false (token key) p k
  = if prefix_of (Spec.token_chars key) (rest p)
    then k (after (Spec.token_chars key) p) else None.
Proof.
  rewrite <- rmatch_lit. unfold Spec.token_chars. rewrite rmatch_lit_cons.
  unfold token, lit. cbn [seqs rmatch]. apply one_ext. intros q.
  apply (rmatch_lit_app (chars key) ["}"%char]).
Qed.

Lemma match_at_token (key : string) p :
  match_at false (token key) p
  = if prefix_of (Spec.token_chars key) (rest p)
    then Some (length (Spec.token_chars key)) else None.
Proof.
  unfold match_at. rewrite rmatch_token.
  destruct (prefix_of (Spec.token_chars key) (rest p)) eqn:Hpre; [| done].
  f_equal. rewrite (rest_after _ _ Hpre) at 1. rewrite length_app. lia.
Qed.

End Literal.

(** ** Global replacement of a token *)

Section Replace.

Implicit Types (w l b t rep out : list ascii).


(** The code units of a match are passed over. *)
Lemma replace_from_skip ic r rep seen w b :
  replace_from ic r rep seen (w ++ b) (length w)
  = replace_from ic r rep (rev w ++ seen) b 0.
Proof.
  revert seen. induction w as [| c w IH]; intros seen; [done |].
  cbn [length app replace_from]. rewrite IH. cbn [rev].
  by rewrite <- app_assoc.
Qed.

(** [content.replace(regex, repl)] with the pattern of a token rewrites
    the occurrences of the token. *)
Lemma replace_from_token (key : string) (ok : list ascii → Prop) rep :
  (∀ m b a, ok (substitution rep m b a)) →
  ∀ l seen,
    Spec.Rewritten (Spec.token_chars key) ok l
      (replace_from false (token key) rep seen l 0).
Proof.
  intros Hok l.
  induction l as [l IH] using (induction_ltof1 _ (@length ascii)).
  unfold ltof in IH. intros seen.
  destruct l as [| c l].
  - cbn [replace_from]. rewrite match_at_token. cbn. constructor.
  - cbn [replace_from]. rewrite match_at_token. cbn [rest].
    destruct (prefix_of (Spec.token_chars key) (c :: l)) eqn:Hpre.
    + destruct (prefix_of_split _ _ Hpre) as [b Hb].
      unfold Spec.token_chars in Hb at 1. injection Hb as -> ->.
      change (length (Spec.token_chars key))
        with (S (length (chars key ++ ["}"%char])%list)).
      cbn [Nat.eqb Nat.sub app]. rewrite Nat.sub_0_r, replace_from_skip.
      change ("{"%char :: (chars key ++ ["}"%char]) ++ b)%list
        with (Spec.token_chars key ++ b)%list.
      apply Spec.rw_match; [apply Hok |].
      apply IH. cbn. rewrite !length_app. lia.
    + apply Spec.rw_copy; [done |]. apply IH. cbn. lia.
Qed.

Lemma replace_all_token (key repl content : string) (ok : list ascii → Prop) :
  (∀ m b a, ok (substitution (chars repl) m b a)) →
  Spec.Rewritten (Spec.token_chars key) ok (chars content)
    (chars (replace_all false (token key) repl content)).
Proof.
  intros Hok. unfold replace_all. rewrite chars_str.
  by apply replace_from_token.
Qed.

End Replace.

(** ** What a rewriting keeps and what it removes *)

Section Rewritten.

Implicit Types (w l b t rep out : list ascii).

Lemma includes_chars_cons (c : ascii) l w :
  includes_chars (c :: l) w = prefix_of w (c :: l) || includes_chars l w.
Proof. reflexivity. Qed.

Lemma includes_chars_app_r x y w :
  includes_chars y w = true → includes_chars (x ++ y) w = true.
Proof.
  intros H. induction x as [| c x IH]; [done |].
  change ((c :: x) ++ y)%list with (c :: (x ++ y))%list.
  rewrite includes_chars_cons, IH. apply orb_true_r.
Qed.

(** An occurrence of [o :: t] does not start in a text without [o]. *)
Lemma includes_chars_skip (o : ascii) x y t :
  o ∉ x → includes_chars (x ++ y) (o :: t) = includes_chars y (o :: t).
Proof.
  induction x as [| c x IH]; intros H; [done |].
  apply not_elem_of_cons in H as [Hc Hx].
  change ((c :: x) ++ y)%list with (c :: (x ++ y))%list.
  rewrite includes_chars_cons, IH by done. cbn [prefix_of].
  destruct (Ascii.eqb_spec o c) as [-> | _]; [done | reflexivity].
Qed.

Variables (o : ascii) (t : list ascii) (ok : list ascii → Prop).
Hypothesis o_not_in_t : o ∉ t.

(** A text without [o] at the head of the input is at the head of the
    output. *)
Lemma rewritten_keeps_prefix w l out :
  o ∉ w → Spec.Rewritten (o :: t) ok l out →
  prefix_of w l = true → prefix_of w out = true.
Proof.
  intros Hw Hrw. revert w Hw.
  induction Hrw as [| b out rep Hrep Hrw IH | c l out Hpre Hrw IH];
    intros w Hw H; [done | |].
  - destruct w as [| x w]; [done |].
    apply not_elem_of_cons in Hw as [Hx _]. cbn in H.
    apply andb_true_iff in H as [Hc _]. apply Ascii.eqb_eq in Hc. done.
  - destruct w as [| x w]; [done |].
    apply not_elem_of_cons in Hw as [_ Hw]. cbn in H |- *.
    apply andb_true_iff in H as [Hc H]. rewrite Hc. by apply IH.
Qed.

(** Survival: an occurrence of another token [o :: t'] is still in the
    output. *)
Lemma rewritten_keeps_token t' l out :
  o ∉ t' →
  (∀ b, prefix_of (o :: t) (o :: (t' ++ b)) = false) →
  Spec.Rewritten (o :: t) ok l out →
  includes_chars l (o :: t') = true → includes_chars out (o :: t') = true.
Proof.
  intros Ht' Hdiff Hrw.
  induction Hrw as [| b out rep Hrep Hrw IH | c l out Hpre Hrw IH]; intros H.
  - done.
  - apply includes_chars_app_r. apply IH.
    change ((o :: t) ++ b)%list with (o :: (t ++ b))%list in H.
    rewrite includes_chars_cons, includes_chars_skip in H by done.
    apply orb_true_iff in H as [H | H]; [| done].
    exfalso. destruct (prefix_of_split _ _ H) as [b' Hb'].
    pose proof (Hdiff b') as Hd.
    change ((o :: t') ++ b')%list with (o :: (t' ++ b'))%list in Hb'.
    rewrite <- Hb' in Hd.
    change (o :: t ++ b)%list with ((o :: t) ++ b)%list in Hd.
    by rewrite prefix_of_app in Hd.
  - rewrite includes_chars_cons in H |- *.
    apply orb_true_iff in H as [H | H].
    + apply orb_true_iff. left. cbn in H |- *.
      apply andb_true_iff in H as [Hc H]. rewrite Hc. cbn.
      by apply (rewritten_keeps_prefix t' l out).
    + apply orb_true_iff. right. by apply IH.
Qed.

Variable r0 : ascii.
Hypothesis ok_shape : ∀ rep, ok rep → (o ∉ rep) ∧ (∃ rep', rep = r0 :: rep').
Hypothesis r0_not_in_t : r0 ∉ t.



End Rewritten.

(** ** Applying a template *)

Section Apply.

Lemma is_word_not_in (c : ascii) (key : string) :
  Spec.identifier key = true → is_word c = false → c ∉ chars key.
Proof.
  unfold Spec.identifier. intros Hid Hc Hin.
  apply list_elem_of_In in Hin.
  rewrite forallb_forall in Hid. specialize (Hid c Hin). congruence.
Qed.

Lemma not_in_token_tail (c : ascii) (key : string) :
  Spec.identifier key = true → is_word c = false → c ≠ "}"%char →
  c ∉ (chars key ++ ["}"%char])%list.
Proof.
  intros Hid Hc Hne. rewrite elem_of_app, list_elem_of_singleton.
  intros [H | H]; [by apply (is_word_not_in c key) | done].
Qed.

(** The token of one identifier is no prefix of the token of another. *)
Lemma token_prefix_diff (w w' b : list ascii) :
  forallb is_word w = true → forallb is_word w' = true → w ≠ w' →
  prefix_of (w ++ ["}"%char]) (w' ++ "}"%char :: b) = false.
Proof.
  revert w'. induction w as [| c w IH]; intros [| d w'] Hw Hw' Hne;
    cbn [prefix_of app forallb] in *.
  - done.
  - apply andb_true_iff in Hw' as [Hd _].
    destruct (Ascii.eqb_spec "}" d) as [<- | _]; [done | reflexivity].
  - apply andb_true_iff in Hw as [Hc _].
    destruct (Ascii.eqb_spec c "}") as [-> | _]; [done | reflexivity].
  - apply andb_true_iff in Hw as [_ Hw]. apply andb_true_iff in Hw' as [_ Hw'].
    destruct (Ascii.eqb_spec c d) as [-> | _]; [| reflexivity].
    apply IH; [done | done | congruence].
Qed.

Lemma chars_inj (a b : string) : chars a = chars b → a = b.
Proof. intros H. by rewrite <- (str_chars a), <- (str_chars b), H. Qed.

(** Substituting one variable keeps the tokens of the others. *)
Lemma substitute_keeps_token (content key' key : string) (v : value) :
  Spec.identifier key' = true → Spec.identifier key = true → key' ≠ key →
  includes content (Spec.brace key) = true →
  includes (substitute content (key', v)) (Spec.brace key) = true.
Proof.
  intros Hid' Hid Hne. unfold includes. rewrite chars_brace.
  unfold substitute.
  apply (rewritten_keeps_token "{" (chars key' ++ ["}"%char]) (fun _ => True)).
  - by apply not_in_token_tail.
  - by apply not_in_token_tail.
  - intros b. cbn [prefix_of]. rewrite Ascii.eqb_refl. cbn [andb].
    rewrite <- app_assoc. apply token_prefix_diff; try done.
    intros H. by apply Hne, chars_inj.
  - by apply (replace_all_token key').
Qed.





(** C1, as the code has it: [applyTemplate] without values
    substitutes the tokens [{prompt}] and [{original_prompt}] only;
    the token of any other variable, such as [{topic}], that the
    content holds is still in the result. *)
Theorem applyTemplate_no_values (now : Z) (st : Store)
  (templateId text key : string) (template : Template) :
  getTemplate st templateId = Some template →
  Spec.identifier key = true → key ≠ "prompt" → key ≠ "original_prompt" →
  includes (t_content template) (Spec.brace key) = true →
  ∃ out,
    (applyTemplate now templateId text [] st).1 = Return out
    ∧ out = substitute (substitute (t_content template) ("prompt", VString text))
              ("original_prompt", VString text)
    ∧ includes out (Spec.brace key) = true.
Proof.
  intros Hget Hid Hp Hop Hin. unfold applyTemplate. rewrite Hget.
  eexists. split; [reflexivity |]. split; [reflexivity |].
  cbn [allVariables fold_left].
  apply substitute_keeps_token; [done | done | done |].
  by apply substitute_keeps_token.
Qed.

Lemma applyTemplate_no_values_witness :
  ∃ out,
    (applyTemplate 5 "about" "cats" [] sample_store).1 = Return out
    ∧ out = substitute (substitute (t_content topic_template)
                          ("prompt", VString "cats"))
              ("original_prompt", VString "cats")
    ∧ includes out (Spec.brace "topic") = true.
Proof.
  apply (applyTemplate_no_values 5 sample_store "about" "cats" "topic"
           topic_template).
  - reflexivity.
  - reflexivity.
  - discriminate.
  - discriminate.
  - reflexivity.
Defined.

(** C1 as stated fails: the template "about" declares the variable
    [topic] and its content holds [{topic}]; [applyTemplate] without
    values returns a text that still holds [{topic}] and nowhere
    [[topic]]. *)
Lemma applyTemplate_topic_untouched :
  "topic" ∈ t_variables topic_template
  ∧ getTemplate sample_store "about" = Some topic_template
  ∧ includes (t_content topic_template) "{topic}" = true
  ∧ (applyTemplate 5 "about" "cats" [] sample_store).1
    = Return "Tell me about {topic}: cats"
  ∧ includes "Tell me about {topic}: cats" "[topic]" = false.
Proof.
  split; [cbn; set_solver |]. vm_compute. repeat split.
Qed.



End Apply.
